(** * Sentinel Hub Statistical API: request payload construction

    A shallow embedding of [sentinelhub/sentinelhub_statistical.py]:
    the static methods [body] and [aggregation] of class
    [SentinelHubStatistical] and its constructor.

    Python dictionaries and lists are mutable objects that are passed by
    reference, and [body] writes into the dictionaries it is given.  The
    embedding therefore keeps an explicit store of objects: a value is
    either immutable data or a reference into the store, and every
    operation threads the store and may raise. *)

From Stdlib Require Import ZArith String Ascii PrimFloat.
From stdpp Require Import gmap strings list fin_maps.

Local Open Scope string_scope.
Local Open Scope list_scope.

(** ** Values and the object store *)

Definition loc := positive.

#[local] Set Warnings "-register-all".

Inductive value : Type :=
| VNone
| VBool (b : bool)
| VInt (z : Z)
| VFloat (f : float)
| VStr (s : string)
| VTuple (vs : list value)
| VRef (l : loc).

(** A [dict] keeps its items in insertion order, as Python's does. *)
Definition dict := list (string * value).

Inductive object : Type :=
| ODict (d : dict)
| OList (vs : list value).

Abbreviation heap := (gmap loc object).

(** The exceptions of the built-in operations, and [OtherError] for the
    classes the utilities raise.  In Python a reference always leads to
    an object; where a store of the model has none for it, the
    operations below raise [SystemError]. *)
Inductive exn : Type :=
| TypeError
| ValueError
| SystemError
| OtherError (cls : string).

(** The outcome of running a piece of code: a result or an exception,
    and in both cases the store as the code left it. *)
Inductive outcome (A : Type) : Type :=
| Ok (a : A) (h : heap)
| Raise (e : exn) (h : heap).
Arguments Ok {A} a h.
Arguments Raise {A} e h.

Definition M (A : Type) : Type := heap → outcome A.

Definition ret {A} (a : A) : M A := λ h, Ok a h.
Definition raise {A} (e : exn) : M A := λ h, Raise e h.
Definition bind {A B} (m : M A) (k : A → M B) : M B :=
  λ h, match m h with
       | Ok a h' => k a h'
       | Raise e h' => Raise e h'
       end.

Notation "'let*' x ':=' m 'in' k" := (bind m (λ x, k))
  (at level 10, x pattern, m at level 100, k at level 200).
Notation "'do' m 'in' k" := (bind m (λ _, k))
  (at level 10, m at level 100, k at level 200).

(** A pure collaborator either raises or returns. *)
Definition lift {A} (r : exn + A) : M A :=
  λ h, match r with inl e => Raise e h | inr a => Ok a h end.

(** ** Dictionaries *)

Fixpoint dict_get (d : dict) (k : string) : option value :=
  match d with
  | [] => None
  | (k', v) :: d' => if decide (k' = k) then Some v else dict_get d' k
  end.

(** [d[k] = v]: an existing key keeps its position, a new key goes last. *)
Fixpoint dict_set (d : dict) (k : string) (v : value) : dict :=
  match d with
  | [] => [(k, v)]
  | (k', v') :: d' =>
      if decide (k' = k) then (k', v) :: d' else (k', v') :: dict_set d' k v
  end.

Definition dict_has (d : dict) (k : string) : bool :=
  match dict_get d k with Some _ => true | None => false end.

Definition dict_keys (d : dict) : list string := d.*1.

(** ** Python's built-in operations on the values of the model *)

(** [k in s] for two strings: [k] occurs in [s]. *)
Fixpoint substring_of (k s : string) : bool :=
  String.prefix k s ||
  match s with
  | EmptyString => false
  | String _ s' => substring_of k s'
  end.

Definition is_str (k : string) (v : value) : bool :=
  match v with VStr s => bool_decide (s = k) | _ => false end.

(** A [VStr] holds a Python [str] in UTF-8, and the items of a [str]
    are its characters: a byte that continues a character stays with
    the byte that starts it. *)
Definition is_continuation (c : ascii) : bool :=
  Nat.leb 128 (nat_of_ascii c) && Nat.ltb (nat_of_ascii c) 192.

(** The bytes that continue a character begun before, and the
    characters after them. *)
Fixpoint group_bytes (bytes : list ascii) : list ascii * list (list ascii) :=
  match bytes with
  | [] => ([], [])
  | c :: rest =>
      let (pending, complete) := group_bytes rest in
      if is_continuation c then (c :: pending, complete)
      else ([], (c :: pending) :: complete)
  end.

Definition chars (s : string) : list value :=
  let (pending, complete) := group_bytes (list_ascii_of_string s) in
  (λ bytes, VStr (string_of_list_ascii bytes)) <$>
    match pending with [] => complete | _ :: _ => pending :: complete end.

(** The items a [for] loop or an unpacking reads from [v].  Neither
    [body] nor [aggregation] changes a container while it walks it, so
    the items are read at once. *)
Definition iterate (v : value) : M (list value) := λ h,
  match v with
  | VStr s => Ok (chars s) h
  | VTuple vs => Ok vs h
  | VRef l =>
      match h !! l with
      | Some (OList vs) => Ok vs h
      | Some (ODict d) => Ok (VStr <$> dict_keys d) h
      | None => Raise SystemError h
      end
  | VNone | VBool _ | VInt _ | VFloat _ => Raise TypeError h
  end.

(** [k in v] for a string [k]. *)
Definition contains (k : string) (v : value) : M bool := λ h,
  match v with
  | VStr s => Ok (substring_of k s) h
  | VTuple vs => Ok (existsb (is_str k) vs) h
  | VRef l =>
      match h !! l with
      | Some (ODict d) => Ok (dict_has d k) h
      | Some (OList vs) => Ok (existsb (is_str k) vs) h
      | None => Raise SystemError h
      end
  | VNone | VBool _ | VInt _ | VFloat _ => Raise TypeError h
  end.

(** [v[k] = x] for a string [k]: only a dictionary accepts it. *)
Definition setitem (v : value) (k : string) (x : value) : M unit := λ h,
  match v with
  | VRef l =>
      match h !! l with
      | Some (ODict d) => Ok tt (<[l := ODict (dict_set d k x)]> h)
      | Some (OList _) => Raise TypeError h
      | None => Raise SystemError h
      end
  | _ => Raise TypeError h
  end.

(** A dictionary display [{...}] creates a new object. *)
Definition new_dict (d : dict) : M value := λ h,
  let l := fresh (dom h) in Ok (VRef l) (<[l := ODict d]> h).

Definition is_empty {A} (l : list A) : bool :=
  match l with [] => true | _ :: _ => false end.

(** Truth value of [v] in a condition. *)
Definition truthy (v : value) : M bool := λ h,
  match v with
  | VNone => Ok false h
  | VBool b => Ok b h
  | VInt z => Ok (negb (z =? 0)%Z) h
  | VFloat f => Ok (negb (PrimFloat.eqb f PrimFloat.zero)) h
  | VStr s => Ok (negb (bool_decide (s = ""))) h
  | VTuple vs => Ok (negb (is_empty vs)) h
  | VRef l =>
      match h !! l with
      | Some (ODict d) => Ok (negb (is_empty d)) h
      | Some (OList vs) => Ok (negb (is_empty vs)) h
      | None => Raise SystemError h
      end
  end.

(** [a, b = v]: exactly two items, else [ValueError]. *)
Definition unpack2 (v : value) : M (value * value) :=
  let* items := iterate v in
  match items with
  | [a; b] => ret (a, b)
  | _ => raise ValueError
  end.

(** [for x in items: f x] *)
Fixpoint for_each (items : list value) (f : value → M unit) : M unit :=
  match items with
  | [] => ret tt
  | x :: rest => do f x in for_each rest f
  end.

(** ** The module *)

Section Statistical.

(** What the module imports and does not define: the time utilities,
    the merge of [other_args], the [bounds] helper and initializer of
    the base request class, and the MIME type constant.  Bounding
    boxes, geometries, time intervals and the keyword arguments of the
    base class are only handed on to them.  The time utilities compute
    from their arguments alone; the merge and [bounds] may write to the
    store; the initializer of the base class gets the two fields set
    before it and the keyword arguments, and reads the store. *)
Context {TimeInterval Interval BBox Geometry MimeType Kwargs Base : Type}.
Variable parse_time_interval : TimeInterval → bool → exn + Interval.
Variable serialize_time : Interval → bool → exn + (value * value).
Variable _update_other_args : value → value → M unit.
Variable bounds : option BBox → option Geometry → M value.
Variable JSON : MimeType.
Variable base_init : MimeType → value → Kwargs → heap → exn + Base.

(** Lines 70-72: the loop body of [body]. *)
Definition ensure_dataFilter (input_data_payload : value) : M unit :=
  let* present := contains "dataFilter" input_data_payload in
  if negb present then
    let* empty := new_dict [] in
    setitem input_data_payload "dataFilter" empty
  else ret tt.

Definition body
    (request_bounds request_data aggregation calculations other_args : value)
    : M value :=
  let* items := iterate request_data in
  do for_each items ensure_dataFilter in
  let* calculations :=
    match calculations with
    | VNone => let* default := new_dict [] in new_dict [("default", default)]
    | _ => ret calculations
    end in
  let* input := new_dict [("bounds", request_bounds);
                          ("data", request_data)] in
  let* request_body := new_dict [("input", input);
                                 ("aggregation", aggregation);
                                 ("calculations", calculations)] in
  let* merge := truthy other_args in
  do (if merge then _update_other_args request_body other_args
      else ret tt) in
  ret request_body.

Definition aggregation
    (evalscript : value) (time_interval : TimeInterval)
    (aggregation_interval size resolution other_args : value) : M value :=
  let* interval := lift (parse_time_interval time_interval true) in
  let* (start_time, end_time) := lift (serialize_time interval true) in
  let* time_range := new_dict [("from", start_time); ("to", end_time)] in
  let* aggregation_of := new_dict [("of", aggregation_interval)] in
  let* payload := new_dict [("evalscript", evalscript);
                            ("timeRange", time_range);
                            ("aggregationInterval", aggregation_of)] in
  let* has_size := truthy size in
  do (if has_size then
        let* (width, height) := unpack2 size in
        do setitem payload "width" width in
        setitem payload "height" height
      else ret tt) in
  let* has_resolution := truthy resolution in
  do (if has_resolution then
        let* (resx, resy) := unpack2 resolution in
        do setitem payload "resx" resx in
        setitem payload "resy" resy
      else ret tt) in
  let* merge := truthy other_args in
  do (if merge then _update_other_args payload other_args else ret tt) in
  ret payload.

(** The fields the constructor sets; [base] stands for what the
    initializer of the base class adds. *)
Record SentinelHubStatistical : Type := {
  mime_type : MimeType;
  payload : value;
  base : Base
}.

Definition __init__
    (aggregation input_data : value) (bbox : option BBox)
    (geometry : option Geometry) (calculations : value) (kwargs : Kwargs)
    : M SentinelHubStatistical :=
  let mime_type := JSON in
  let* request_bounds := bounds bbox geometry in
  let* payload := body request_bounds input_data aggregation calculations VNone in
  let* base := (λ h, lift (base_init mime_type payload kwargs h) h) in
  ret {| mime_type := mime_type; payload := payload; base := base |}.

End Statistical.

(** ** Reading the store *)

Definition as_dict (h : heap) (v : value) : option dict :=
  match v with
  | VRef l => match h !! l with Some (ODict d) => Some d | _ => None end
  | _ => None
  end.

(** [v[k]] when [v] is a dictionary of [h] that has key [k]. *)
Definition getitem (h : heap) (v : value) (k : string) : option value :=
  d ← as_dict h v; dict_get d k.

Definition dict_ref (h : heap) (v : value) : Prop :=
  ∃ l d, v = VRef l ∧ h !! l = Some (ODict d).

Definition lacks_dataFilter (h : heap) (l : loc) : Prop :=
  ∃ d, h !! l = Some (ODict d) ∧ dict_get d "dataFilter" = None.

Definition has_dataFilter (h : heap) (v : value) : Prop :=
  ∃ d x, as_dict h v = Some d ∧ dict_get d "dataFilter" = Some x.

(** What the loop of [body] over [items] does to the store: it fills in
    the dictionaries that lack the key, each with an empty dictionary of
    its own, keeps every other object, and creates nothing else. *)
Record normalized (items : list value) (h h' : heap) : Prop := {
  norm_filled : ∀ l d,
    VRef l ∈ items → h !! l = Some (ODict d) →
    dict_get d "dataFilter" = None →
    ∃ e, h !! e = None ∧ h' !! e = Some (ODict []) ∧
         h' !! l = Some (ODict (d ++ [("dataFilter", VRef e)]));
  norm_frame : ∀ l o,
    h !! l = Some o → ¬ (VRef l ∈ items ∧ lacks_dataFilter h l) →
    h' !! l = Some o;
  norm_new : ∀ l,
    h !! l = None → h' !! l = None ∨ h' !! l = Some (ODict [])
}.

(** Where [body] stores the value of ['calculations']: a new
    [{'default': {}}] for [None], the argument itself otherwise. *)
Definition calculations_stored (calculations c : value) (h1 hf : heap) : Prop :=
  match calculations with
  | VNone => ∃ lc ld, c = VRef lc ∧ h1 !! lc = None ∧ h1 !! ld = None ∧
                      hf !! lc = Some (ODict [("default", VRef ld)]) ∧
                      hf !! ld = Some (ODict [])
  | _ => c = calculations
  end.

(** What [body] builds once its loop has left the store [h1]: the
    payload at [lp] and its ['input'] at [li], both new, in a store [hf]
    that keeps every object of [h1]. *)
Record body_built (request_bounds request_data aggregation calculations : value)
    (h1 hf : heap) (lp li : loc) (c : value) : Prop := {
  bb_extends : h1 ⊆ hf;
  bb_payload_new : h1 !! lp = None;
  bb_input_new : h1 !! li = None;
  bb_payload_dict :
    hf !! lp = Some (ODict [("input", VRef li);
                            ("aggregation", aggregation);
                            ("calculations", c)]);
  bb_input_dict :
    hf !! li = Some (ODict [("bounds", request_bounds);
                            ("data", request_data)]);
  bb_calc_stored : calculations_stored calculations c h1 hf
}.


(** *** Shapes of the arguments of [aggregation] *)

Definition is_pair (v : value) : bool :=
  match v with VTuple [_; _] => true | _ => false end.

Definition is_int_pair (v : value) : bool :=
  match v with VTuple [VInt _; VInt _] => true | _ => false end.

(** [None] or a value of the given shape. *)
Definition optional (shape : value → bool) (v : value) : bool :=
  match v with VNone => true | _ => shape v end.

(** The two items a pair contributes to the payload. *)
Definition pair_items (k1 k2 : string) (v : value) : dict :=
  match v with
  | VTuple [a; b] => [(k1, a); (k2, b)]
  | _ => []
  end.

(** [other_args] left out, or an empty dictionary that is not one of
    the items [body] walks. *)
Definition other_args_unused (h : heap) (items : list value)
    (other_args : value) : Prop :=
  other_args = VNone ∨ (as_dict h other_args = Some [] ∧ other_args ∉ items).

(** [other_args] left out, or an empty dictionary. *)
Definition no_other_args (h : heap) (other_args : value) : Prop :=
  other_args = VNone ∨ as_dict h other_args = Some [].

(** What [aggregation] builds before it looks at [other_args]: the
    payload at [lp] with items [d], its ['timeRange'] at [lr] and its
    ['aggregationInterval'] at [la], all new, in a store [hf] that keeps
    every object of [h]. *)
Record aggregation_built (start_time end_time aggregation_interval : value)
    (h hf : heap) (lp lr la : loc) (d : dict) : Prop := {
  ab_extends : h ⊆ hf;
  ab_payload_new : h !! lp = None;
  ab_range_new : h !! lr = None;
  ab_interval_new : h !! la = None;
  ab_payload_dict : hf !! lp = Some (ODict d);
  ab_range_dict :
    hf !! lr = Some (ODict [("from", start_time); ("to", end_time)]);
  ab_interval_dict : hf !! la = Some (ODict [("of", aggregation_interval)])
}.

(** The statements [if v: p[k1], p[k2] = v] of [aggregation]. *)
Definition set_pair (p : value) (k1 k2 : string) (v : value) : M unit :=
  let* given := truthy v in
  if given then
    let* (a, b) := unpack2 v in
    do setitem p k1 a in
    setitem p k2 b
  else ret tt.

(** The last statements of [body] and of [aggregation]. *)
Definition merge_other_args (upd : value → value → M unit)
    (p other_args : value) : M value :=
  let* merge := truthy other_args in
  do (if merge then upd p other_args else ret tt) in
  ret p.

(** ** Reference collaborators

    The properties below hold for whatever the imported utilities are.
    To run the module on concrete requests this section gives them a
    definition. *)

Module Reference.

(** Modelled from the spec: the time utilities [parse_time_interval]
    and [serialize_time], which are imported from [time_utils].  A
    time interval is a pair of dates [YYYY-MM-DD] or the undefined
    sentinel; it is normalized to itself, a malformed one is refused,
    and a date is serialized as a timestamp at midnight, with the zone
    when [use_tz] is set. *)
Definition TimeInterval : Type := option (string * string).
Definition Interval : Type := option (string * string).

Definition is_date (s : string) : bool := bool_decide (String.length s = 10).

Definition parse_time_interval (time_interval : TimeInterval)
    (allow_undefined : bool) : exn + Interval :=
  match time_interval with
  | None =>
      if allow_undefined then inr None
      else inl (OtherError "InvalidInputError")
  | Some (a, b) =>
      if is_date a && is_date b then inr (Some (a, b))
      else inl (OtherError "InvalidInputError")
  end.

Definition serialize_date (use_tz : bool) (date : string) : value :=
  VStr (String.append date (if use_tz then "T00:00:00Z" else "T00:00:00")).

Definition serialize_time (interval : Interval) (use_tz : bool)
    : exn + (value * value) :=
  match interval with
  | None => inr (VNone, VNone)
  | Some (a, b) => inr (serialize_date use_tz a, serialize_date use_tz b)
  end.

(** [for key, value in items: f key value] *)
Fixpoint for_items (items : dict) (f : string → value → M unit) : M unit :=
  match items with
  | [] => ret tt
  | (key, value) :: rest => do f key value in for_items rest f
  end.

(** [v[k]] for a string [k]: what a dictionary has under [k]. *)
Definition subscript (v : value) (k : string) : M value := λ h,
  match as_dict h v with
  | Some d =>
      match dict_get d k with
      | Some x => Ok x h
      | None => Raise (OtherError "KeyError") h
      end
  | None => Raise TypeError h
  end.

(** Modelled from the spec: the merge utility [_update_other_args],
    which is imported from [sh_utils].  It writes the items of
    [overrides] into [target], an override winning over what [target]
    has under the same key.  Where the override under a key is a
    dictionary and [target] has the key, the merge goes on inside what
    [target] has there, and fails when that cannot take the items: a
    conflict of the deep merge, which is not recovered from.  [fuel]
    bounds the depth. *)
Fixpoint update_other_args (fuel : nat) (target overrides : value)
    : M unit :=
  match fuel with
  | 0 => raise (OtherError "RecursionError")
  | S fuel' => λ h,
      match as_dict h overrides with
      | None => Raise (OtherError "AttributeError") h
      | Some items =>
          for_items items (λ key value h',
            match as_dict h' value with
            | Some _ =>
                (let* present := contains key target in
                 if present then
                   let* inner := subscript target key in
                   update_other_args fuel' inner value
                 else setitem target key value) h'
            | None => setitem target key value h'
            end) h
      end
  end.

Definition _update_other_args : value → value → M unit :=
  update_other_args 64.

(** Modelled from the spec: the helper [bounds] of the base request
    class, which resolves a bounding box or a geometry into a new
    bounds descriptor and fails if both or neither are supplied. *)
Definition BBox : Type := value.
Definition Geometry : Type := value.

Definition bounds (bbox : option BBox) (geometry : option Geometry)
    : M value :=
  match bbox, geometry with
  | Some b, None => new_dict [("bbox", b)]
  | None, Some g => new_dict [("geometry", g)]
  | _, _ => raise ValueError
  end.

(** Modelled from the spec: the MIME type enumeration of [constants],
    and the initializer of the base request class, which takes the
    download client and the transport configuration and does not
    touch the payload. *)
Inductive MimeType : Type := JSON | OTHER (name : string).

Definition Kwargs : Type := list (string * value).
Definition Base : Type := list (string * value).

Definition base_init (mime_type : MimeType) (payload : value)
    (kwargs : Kwargs) (h : heap) : exn + Base :=
  inr (("download_client_class",
        VStr "SentinelHubStatisticalDownloadClient") :: kwargs).

Definition body := body _update_other_args.
Definition aggregation :=
  aggregation parse_time_interval serialize_time _update_other_args.
Definition __init__ := __init__ _update_other_args bounds JSON base_init.

End Reference.

(** A caller's store for the examples.  Two input-data dictionaries,
    the first without ['dataFilter'], in a list [l_data]; an aggregation
    dictionary; an empty dictionary; a dictionary [{'resx': 1}]; a
    bounds descriptor; the lists of the first and of the second
    input-data dictionary alone. *)
Module Example.

Definition l_first : loc := 1%positive.
Definition l_second : loc := 2%positive.
Definition l_filter : loc := 3%positive.
Definition l_data : loc := 4%positive.
Definition l_aggregation : loc := 5%positive.
Definition l_empty : loc := 6%positive.
Definition l_other : loc := 7%positive.
Definition l_bounds : loc := 8%positive.
Definition l_single : loc := 9%positive.
Definition l_done : loc := 10%positive.

Definition store : heap :=
  list_to_map
    [ (l_first, ODict [("type", VStr "sentinel-2-l1c")]);
      (l_second, ODict [("type", VStr "sentinel-2-l2a");
                        ("dataFilter", VRef l_filter)]);
      (l_filter, ODict [("mosaickingOrder", VStr "leastCC")]);
      (l_data, OList [VRef l_first; VRef l_second]);
      (l_aggregation, ODict [("evalscript", VStr "//VERSION=3")]);
      (l_empty, ODict []);
      (l_other, ODict [("resx", VInt 1)]);
      (l_bounds, ODict [("bbox", VTuple [VInt 0; VInt 0; VInt 1; VInt 1])]);
      (l_single, OList [VRef l_first]);
      (l_done, OList [VRef l_second]) ].

Definition interval : Reference.TimeInterval :=
  Some ("2020-01-01", "2020-02-01").

End Example.

(** ** Outcomes and stores, for the properties of every call *)

(** The store a run leaves, whether it returns or raises. *)
Definition store_of {A} (o : outcome A) : heap :=
  match o with Ok _ h => h | Raise _ h => h end.

(** Every object of [h] is in [h'], a list as it was, a dictionary as
    it was or with one item for ['dataFilter'], bound to an object that
    [h] did not have, after the items it had. *)
Definition only_dataFilter_added (h h' : heap) : Prop :=
  ∀ l o, h !! l = Some o →
    match o with
    | OList vs => h' !! l = Some (OList vs)
    | ODict d =>
        h' !! l = Some (ODict d) ∨
        (dict_get d "dataFilter" = None ∧
         ∃ e, h !! e = None ∧
              h' !! l = Some (ODict (d ++ [("dataFilter", VRef e)])))
    end.

(** [None], a boolean or a number: a value with no items and no keys. *)
Definition is_scalar (v : value) : bool :=
  match v with
  | VNone | VBool _ | VInt _ | VFloat _ => true
  | VStr _ | VTuple _ | VRef _ => false
  end.

(** The values without a store behind them that count as false. *)
Definition falsy_value (v : value) : bool :=
  match v with
  | VNone => true
  | VBool b => negb b
  | VInt z => (z =? 0)%Z
  | VFloat f => PrimFloat.eqb f PrimFloat.zero
  | VStr s => bool_decide (s = "")
  | VTuple vs => is_empty vs
  | VRef _ => false
  end.

(** The example store with dictionaries to pass as [other_args]: one
    that replaces [input.data] by a list of its own, one that adds a
    key to the aggregation part, one that adds a calculation, one that
    has a dictionary where the payload of [aggregation] has the
    evalscript; and a list whose one element is the empty dictionary
    of the example store. *)
Module OverrideExample.

Definition l_entry : loc := 20%positive.
Definition l_list : loc := 21%positive.
Definition l_input : loc := 22%positive.
Definition l_replace_data : loc := 23%positive.
Definition l_x : loc := 24%positive.
Definition l_into_aggregation : loc := 25%positive.
Definition l_custom : loc := 26%positive.
Definition l_histograms : loc := 27%positive.
Definition l_into_calculations : loc := 28%positive.
Definition l_a : loc := 29%positive.
Definition l_conflict : loc := 30%positive.
Definition l_alias : loc := 31%positive.

Definition store : heap :=
  list_to_map
    [ (l_entry, ODict [("type", VStr "x")]);
      (l_list, OList [VRef l_entry]);
      (l_input, ODict [("data", VRef l_list)]);
      (l_replace_data, ODict [("input", VRef l_input)]);
      (l_x, ODict [("x", VInt 1)]);
      (l_into_aggregation, ODict [("aggregation", VRef l_x)]);
      (l_histograms, ODict []);
      (l_custom, ODict [("custom", VRef l_histograms)]);
      (l_into_calculations, ODict [("calculations", VRef l_custom)]);
      (l_a, ODict [("a", VInt 1)]);
      (l_conflict, ODict [("evalscript", VRef l_a)]);
      (l_alias, OList [VRef Example.l_empty]) ]
  ∪ Example.store.

End OverrideExample.

(** The example store with four more objects: a third input-data
    dictionary, without ['dataFilter']; the list of the first and the
    third; a list with [None] between two input-data dictionaries; a
    size written as a list. *)
Module EdgeExample.

Definition l_third : loc := 11%positive.
Definition l_lacking : loc := 12%positive.
Definition l_mixed : loc := 13%positive.
Definition l_size : loc := 14%positive.

Definition store : heap :=
  <[l_third := ODict [("type", VStr "landsat-ot-l1")]]>
  (<[l_lacking := OList [VRef Example.l_first; VRef l_third]]>
  (<[l_mixed := OList [VRef Example.l_first; VNone; VRef Example.l_second]]>
  (<[l_size := OList [VInt 512; VInt 512]]> Example.store))).

End EdgeExample.

(** ** The built-in operations on small inputs *)

Example contains_substring :
  contains "dataFilter" (VStr "a dataFilter key") ∅ = Ok true ∅.
Proof. reflexivity. Qed.

Example contains_list_item :
  contains "dataFilter" (VTuple [VInt 1; VStr "dataFilter"]) ∅ = Ok true ∅.
Proof. reflexivity. Qed.

Example contains_number : contains "dataFilter" (VInt 3) ∅ = Raise TypeError ∅.
Proof. reflexivity. Qed.

Example setitem_tuple :
  setitem (VTuple []) "dataFilter" VNone ∅ = Raise TypeError ∅.
Proof. reflexivity. Qed.

Example truthy_pair_of_zeros :
  truthy (VTuple [VInt 0; VInt 0]) ∅ = Ok true ∅.
Proof. reflexivity. Qed.

Example truthy_empty_dict : truthy (VRef Example.l_empty) Example.store
                            = Ok false Example.store.
Proof. reflexivity. Qed.

Example unpack2_three :
  unpack2 (VTuple [VInt 1; VInt 2; VInt 3]) ∅ = Raise ValueError ∅.
Proof. reflexivity. Qed.

Example unpack2_string : unpack2 (VStr "ab") ∅ = Ok (VStr "a", VStr "b") ∅.
Proof. reflexivity. Qed.

Example dict_set_keeps_position :
  dict_set [("a", VInt 1); ("b", VInt 2)] "a" VNone
  = [("a", VNone); ("b", VInt 2)].
Proof. reflexivity. Qed.

(** A size that is not a pair stops [aggregation], after the payload
    has been created. *)
Example aggregation_size_of_three :
  ∃ hf,
    Reference.aggregation (VStr "//VERSION=3") Example.interval (VStr "P1D")
      (VTuple [VInt 1; VInt 2; VInt 3]) VNone VNone Example.store
    = Raise ValueError hf.
Proof. by eexists. Qed.

(** ** Basic facts *)

Lemma fresh_lookup (h : heap) : h !! fresh (dom h) = None.
Proof. apply not_elem_of_dom, is_fresh. Qed.

Lemma dict_set_new d k v :
  dict_get d k = None → dict_set d k v = d ++ [(k, v)].
Proof.
  induction d as [|[k' v'] d IH]; simpl; [done|].
  case_decide; [done|]. intros Hd. by rewrite IH.
Qed.

Lemma dict_has_get d k :
  dict_has d k = true ↔ is_Some (dict_get d k).
Proof.
  unfold dict_has. destruct (dict_get d k); split; intros H; eauto;
    try done; by destruct H.
Qed.

Lemma dict_get_app_new d k v : dict_get (d ++ [(k, v)]) k = Some v ∨
  is_Some (dict_get d k).
Proof.
  induction d as [|[k' v'] d IH]; simpl.
  - left. by rewrite decide_True.
  - case_decide; [right; by eexists | done].
Qed.

Lemma ensure_present h v d :
  as_dict h v = Some d → is_Some (dict_get d "dataFilter") →
  ensure_dataFilter v h = Ok tt h.
Proof.
  intros Hd Hk. apply dict_has_get in Hk.
  destruct v; try done. simpl in Hd.
  unfold ensure_dataFilter, bind, contains.
  destruct (h !! l) as [[d'|]|]; try done.
  injection Hd as ->. by rewrite Hk.
Qed.

Lemma ensure_missing h l d :
  h !! l = Some (ODict d) → dict_get d "dataFilter" = None →
  ensure_dataFilter (VRef l) h =
    Ok tt (<[l := ODict (d ++ [("dataFilter", VRef (fresh (dom h)))])]>
           (<[fresh (dom h) := ODict []]> h)).
Proof.
  intros Hl Hk. pose proof (fresh_lookup h) as Hf.
  unfold ensure_dataFilter, bind, contains. rewrite Hl.
  unfold dict_has. rewrite Hk. simpl.
  unfold setitem. rewrite lookup_insert_ne by congruence.
  rewrite Hl. by rewrite dict_set_new.
Qed.

(** ** The loop of [body] on a sequence of dictionaries *)

Lemma normalized_nil h : normalized [] h h.
Proof.
  split.
  - intros l d Hin. by apply elem_of_nil in Hin.
  - done.
  - by left.
Qed.

Lemma for_each_ensure items : ∀ h,
  Forall (dict_ref h) items →
  ∃ h', for_each items ensure_dataFilter h = Ok tt h' ∧ normalized items h h'.
Proof.
  induction items as [|v items IH]; intros h Hwf.
  { exists h. split; [done | apply normalized_nil]. }
  apply Forall_cons in Hwf as [(l0 & d0 & -> & Hl0) Hwf].
  destruct (dict_get d0 "dataFilter") as [x|] eqn:Hk.
  - (* the key is there: nothing happens at this element *)
    destruct (IH h Hwf) as (h' & Hrun & Hn).
    exists h'. split.
    { simpl. unfold bind.
      rewrite (ensure_present h (VRef l0) d0); [done | by simpl; rewrite Hl0 | by eexists]. }
    split.
    + intros l d Hin Hl Hd. apply elem_of_cons in Hin as [Heq|Hin].
      * injection Heq as ->. congruence.
      * by apply (norm_filled _ _ _ Hn).
    + intros l o Hl Hno. apply (norm_frame _ _ _ Hn); [done|].
      intros [Hin Hlk]. apply Hno. split; [by apply elem_of_cons; right | done].
    + apply (norm_new _ _ _ Hn).
  - (* the key is missing: a new empty dictionary is stored under it *)
    pose proof (fresh_lookup h) as Hf.
    set (e := fresh (dom h)) in *.
    set (h1 := <[l0 := ODict (d0 ++ [("dataFilter", VRef e)])]>
               (<[e := ODict []]> h)).
    assert (He0 : e ≠ l0) by congruence.
    assert (Hkeep : ∀ l, l ≠ l0 → l ≠ e → h1 !! l = h !! l).
    { intros l H1 H2. unfold h1. by rewrite !lookup_insert_ne. }
    assert (Hh1l0 : h1 !! l0 = Some (ODict (d0 ++ [("dataFilter", VRef e)]))).
    { unfold h1. by rewrite lookup_insert_eq. }
    assert (Hh1e : h1 !! e = Some (ODict [])).
    { unfold h1. rewrite lookup_insert_ne by done. by rewrite lookup_insert_eq. }
    assert (Hwf1 : Forall (dict_ref h1) items).
    { eapply Forall_impl; [exact Hwf|]. intros v (l & d & -> & Hl).
      destruct (decide (l = l0)) as [->|Hne]; [by eexists _, _|].
      exists l, d. split; [done|]. rewrite Hkeep; [done..|congruence]. }
    destruct (IH h1 Hwf1) as (h' & Hrun & Hn).
    assert (Hnot_e : ¬ (VRef e ∈ items ∧ lacks_dataFilter h1 e)).
    { intros [Hin _]. rewrite Forall_forall in Hwf.
      destruct (Hwf _ Hin) as (l & d & Heq & Hl). injection Heq as <-. congruence. }
    assert (Hnot_l0 : ¬ (VRef l0 ∈ items ∧ lacks_dataFilter h1 l0)).
    { intros [_ (d & Hl & Hd)]. rewrite Hh1l0 in Hl. injection Hl as <-.
      destruct (dict_get_app_new d0 "dataFilter" (VRef e)) as [H|[? H]]; congruence. }
    exists h'. split.
    { simpl. unfold bind. rewrite (ensure_missing h l0 d0) by done. exact Hrun. }
    split.
    + intros l d Hin Hl Hd. destruct (decide (l = l0)) as [->|Hne].
      * assert (d = d0) as -> by congruence.
        exists e. split; [done|].
        split; by apply (norm_frame _ _ _ Hn).
      * apply elem_of_cons in Hin as [Heq|Hin]; [congruence|].
        assert (l ≠ e) by congruence.
        destruct (norm_filled _ _ _ Hn l d) as (e' & He' & Hnew & Hupd);
          [done | by rewrite Hkeep | done |].
        exists e'. split; [|done].
        rewrite <- Hkeep; [done | congruence | congruence].
    + intros l o Hl Hno.
      assert (l ≠ e) by congruence.
      assert (l ≠ l0).
      { intros ->. apply Hno. split; [by apply elem_of_cons; left|].
        by exists d0. }
      apply (norm_frame _ _ _ Hn); [by rewrite Hkeep|].
      intros [Hin (d & Hld & Hd)]. apply Hno.
      split; [by apply elem_of_cons; right|].
      exists d. by rewrite <- Hkeep.
    + intros l Hl. destruct (decide (l = e)) as [->|Hne].
      * right. by apply (norm_frame _ _ _ Hn).
      * apply (norm_new _ _ _ Hn). rewrite Hkeep; [done|congruence|done].
Qed.

(** ** Running [body] without [other_args] *)

Lemma new_dict_spec d h :
  ∃ l, new_dict d h = Ok (VRef l) (<[l := ODict d]> h) ∧ h !! l = None.
Proof. exists (fresh (dom h)). split; [done | apply fresh_lookup]. Qed.

Ltac alloc l Hl :=
  match goal with
  | |- context [new_dict ?d ?h] =>
      destruct (new_dict_spec d h) as (l & -> & Hl); cbn beta iota
  end.

Lemma value_is_None (v : value) : v = VNone ∨ v ≠ VNone.
Proof. destruct v; auto. Qed.

Section BodyRun.
Variable upd : value → value → M unit.

Lemma body_after_loop h request_bounds request_data aggregation calculations
    items h1 :
  iterate request_data h = Ok items h →
  for_each items ensure_dataFilter h = Ok tt h1 →
  ∃ hf lp li c,
    body upd request_bounds request_data aggregation calculations VNone h
      = Ok (VRef lp) hf ∧
    body_built request_bounds request_data aggregation calculations
      h1 hf lp li c.
Proof.
  intros Hit Hrun.
  unfold body, bind. rewrite Hit, Hrun. cbn beta iota.
  destruct (value_is_None calculations) as [->|Hc].
  - alloc ld Hld. alloc lc Hlc. alloc li Hli. alloc lp Hlp.
    apply lookup_insert_None in Hlc as [Hlc ?].
    apply lookup_insert_None in Hli as [Hli ?].
    apply lookup_insert_None in Hli as [Hli ?].
    apply lookup_insert_None in Hlp as [Hlp ?].
    apply lookup_insert_None in Hlp as [Hlp ?].
    apply lookup_insert_None in Hlp as [Hlp ?].
    eexists _, lp, li, (VRef lc). split; [reflexivity|].
    split; try done.
    + do 4 (etrans; [|apply insert_subseteq; by rewrite ?lookup_insert_None]).
      done.
    + by rewrite lookup_insert_eq.
    + rewrite lookup_insert_ne by done. by rewrite lookup_insert_eq.
    + exists lc, ld. repeat split; try done.
      * rewrite !lookup_insert_ne by done. by rewrite lookup_insert_eq.
      * rewrite !lookup_insert_ne by done. by rewrite lookup_insert_eq.
  - destruct calculations; [done|..];
      cbn beta iota; unfold ret at 1; cbn beta iota;
      alloc li Hli; alloc lp Hlp;
      apply lookup_insert_None in Hlp as [Hlp ?];
      (eexists _, lp, li, _; split; [reflexivity|]);
      (split; try done;
       [ do 2 (etrans; [|apply insert_subseteq;
                          by rewrite ?lookup_insert_None]); done
       | by rewrite lookup_insert_eq
       | rewrite lookup_insert_ne by done; by rewrite lookup_insert_eq ]).
Qed.

(** On a sequence of dictionaries [body] returns. *)
Lemma body_run h request_bounds request_data aggregation calculations items :
  iterate request_data h = Ok items h →
  Forall (dict_ref h) items →
  ∃ hf h1 lp li c,
    body upd request_bounds request_data aggregation calculations VNone h
      = Ok (VRef lp) hf ∧
    normalized items h h1 ∧
    body_built request_bounds request_data aggregation calculations
      h1 hf lp li c.
Proof.
  intros Hit Hwf.
  destruct (for_each_ensure items h Hwf) as (h1 & Hrun & Hn).
  destruct (body_after_loop h request_bounds request_data aggregation
              calculations items h1 Hit Hrun) as (hf & lp & li & c & Hb & Hbb).
  by exists hf, h1, lp, li, c.
Qed.

(** Whenever [body] returns, its loop has run to its end. *)
Lemma body_returned h request_bounds request_data aggregation calculations
    p hf :
  body upd request_bounds request_data aggregation calculations VNone h
    = Ok p hf →
  ∃ items h1,
    iterate request_data h = Ok items h ∧
    for_each items ensure_dataFilter h = Ok tt h1.
Proof.
  unfold body, bind. intros Hb.
  destruct (iterate request_data h) as [items h'|] eqn:Hit; [|done].
  assert (h' = h) as ->.
  { unfold iterate in Hit. repeat case_match; congruence. }
  destruct (for_each items ensure_dataFilter h) as [[] h1|] eqn:Hrun; [|done].
  by exists items, h1.
Qed.
End BodyRun.

(** ** Consequences for the elements of [request_data] *)

Lemma dict_get_app_last d k v :
  dict_get d k = None → dict_get (d ++ [(k, v)]) k = Some v.
Proof.
  intros Hd. destruct (dict_get_app_new d k v) as [H|[x H]]; congruence.
Qed.

Lemma normalized_elem items h h1 hf l d :
  normalized items h h1 → h1 ⊆ hf →
  VRef l ∈ items → h !! l = Some (ODict d) →
  match dict_get d "dataFilter" with
  | Some _ => hf !! l = Some (ODict d)
  | None => ∃ e, h !! e = None ∧ hf !! e = Some (ODict []) ∧
                 hf !! l = Some (ODict (d ++ [("dataFilter", VRef e)]))
  end.
Proof.
  intros Hn Hsub Hin Hl. destruct (dict_get d "dataFilter") as [x|] eqn:Hd.
  - eapply lookup_weaken; [|exact Hsub].
    apply (norm_frame _ _ _ Hn); [done|].
    intros [_ (d' & Hl' & Hd')]. congruence.
  - destruct (norm_filled _ _ _ Hn l d Hin Hl Hd) as (e & He & Hnew & Hupd).
    exists e. repeat split; [done | ..]; by eapply lookup_weaken.
Qed.

Lemma normalized_has items h h1 hf :
  Forall (dict_ref h) items → normalized items h h1 → h1 ⊆ hf →
  Forall (has_dataFilter hf) items.
Proof.
  intros Hwf Hn Hsub. rewrite Forall_forall in Hwf |- *.
  intros v Hin. destruct (Hwf v Hin) as (l & d & -> & Hl).
  pose proof (normalized_elem _ _ _ _ _ _ Hn Hsub Hin Hl) as He.
  destruct (dict_get d "dataFilter") as [x|] eqn:Hd.
  - exists d, x. simpl. by rewrite He.
  - destruct He as (e & _ & _ & Hupd).
    eexists _, (VRef e). simpl. rewrite Hupd. split; [done|].
    by apply dict_get_app_last.
Qed.

Lemma iterate_stable request_data items h h1 hf :
  iterate request_data h = Ok items h → Forall (dict_ref h) items →
  normalized items h h1 → h1 ⊆ hf →
  iterate request_data hf = Ok items hf.
Proof.
  intros Hit Hwf Hn Hsub.
  destruct request_data; simpl in *; try done; try congruence.
  destruct (h !! l) as [o|] eqn:Hl; [|done].
  assert (hf !! l = Some o) as ->.
  { eapply lookup_weaken; [|exact Hsub].
    apply (norm_frame _ _ _ Hn); [done|].
    intros [Hin (d & Hd & _)]. destruct o as [d'|vs]; [|congruence].
    injection Hit as <-. apply list_elem_of_fmap in Hin as (k & Hk & _).
    done. }
  destruct o; congruence.
Qed.


(** ** Running the loop of [body] again *)








Lemma for_each_settled items h :
  Forall (λ v, contains "dataFilter" v h = Ok true h) items →
  for_each items ensure_dataFilter h = Ok tt h.
Proof.
  induction 1 as [|v items Hv _ IH]; [done|].
  simpl. unfold bind, ensure_dataFilter at 1, bind. by rewrite Hv.
Qed.


(** ** Properties of [body] *)

Section BodyProperties.
Variable upd : value → value → M unit.

(** C5.  Without [other_args], the payload [body] returns is a
    dictionary with exactly the keys ['input'], ['aggregation'] and
    ['calculations'], and its ['input'] is a dictionary with exactly
    the keys ['bounds'], bound to the given [request_bounds], and
    ['data'], bound to the given [request_data].  On a sequence of
    dictionaries [body] does return. *)
Theorem body_payload_keys
    h request_bounds request_data aggregation calculations :
  (∀ items, iterate request_data h = Ok items h →
     Forall (dict_ref h) items →
     ∃ p hf,
       body upd request_bounds request_data aggregation calculations VNone h
         = Ok p hf) ∧
  (∀ p hf,
     body upd request_bounds request_data aggregation calculations VNone h
       = Ok p hf →
     ∃ input c,
       as_dict hf p = Some [("input", input);
                            ("aggregation", aggregation);
                            ("calculations", c)] ∧
       as_dict hf input = Some [("bounds", request_bounds);
                                ("data", request_data)]).
Proof.
  split.
  - intros items Hit Hwf.
    destruct (body_run upd h request_bounds request_data aggregation
                calculations items Hit Hwf)
      as (hf & h1 & lp & li & c & Hrun & _).
    by exists (VRef lp), hf.
  - intros p hf Hb.
    destruct (body_returned upd _ _ _ _ _ _ _ Hb) as (items & h1 & Hit & Hrun).
    destruct (body_after_loop upd h request_bounds request_data aggregation
                calculations items h1 Hit Hrun)
      as (hf' & lp & li & c & Hb' & Hbb).
    rewrite Hb in Hb'. injection Hb' as -> ->.
    destruct Hbb as [_ _ _ Hp Hi _].
    exists (VRef li), c. simpl. by rewrite Hp, Hi.
Qed.


(** A sequence of dictionaries that [body] has processed is one whose
    elements all have the key, in the store [body] left. *)
Lemma body_processed
    h request_bounds request_data aggregation calculations items p hf :
  iterate request_data h = Ok items h →
  Forall (dict_ref h) items →
  body upd request_bounds request_data aggregation calculations VNone h
    = Ok p hf →
  iterate request_data hf = Ok items hf ∧ Forall (has_dataFilter hf) items.
Proof.
  intros Hit Hwf Hb.
  destruct (body_run upd h request_bounds request_data aggregation
              calculations items Hit Hwf)
    as (hf' & h1 & lp & li & c & Hrun & Hn & Hbb).
  rewrite Hb in Hrun. injection Hrun as -> ->.
  destruct Hbb as [Hsub _ _ _ _ _].
  split; [by eapply iterate_stable | by eapply normalized_has].
Qed.

End BodyProperties.

(** ** Running [aggregation] *)

Lemma truthy_heap v h b h' : truthy v h = Ok b h' → h' = h.
Proof. unfold truthy. intros H. repeat case_match; congruence. Qed.

Lemma iterate_heap v h items h' : iterate v h = Ok items h' → h' = h.
Proof. unfold iterate. intros H. repeat case_match; congruence. Qed.

Lemma set_pair_none p k1 k2 h : set_pair p k1 k2 VNone h = Ok tt h.
Proof. done. Qed.

Lemma set_pair_pair lp k1 k2 a b d h :
  h !! lp = Some (ODict d) →
  set_pair (VRef lp) k1 k2 (VTuple [a; b]) h =
    Ok tt (<[lp := ODict (dict_set (dict_set d k1 a) k2 b)]> h).
Proof.
  intros Hl. unfold set_pair, bind. simpl. rewrite Hl.
  rewrite lookup_insert_eq. by rewrite insert_insert_eq.
Qed.

(** Whatever [v] is, [set_pair] touches the payload only. *)
Lemma set_pair_inv lp k1 k2 v d h h' :
  h !! lp = Some (ODict d) →
  set_pair (VRef lp) k1 k2 v h = Ok tt h' →
  ∃ d', h' = <[lp := ODict d']> h.
Proof.
  intros Hl. unfold set_pair, bind. intros H.
  destruct (truthy v h) as [given ht|] eqn:Ht; [|done].
  apply truthy_heap in Ht as ->.
  destruct given.
  - unfold unpack2, bind in H.
    destruct (iterate v h) as [items hi|] eqn:Hi; [|done].
    apply iterate_heap in Hi as ->.
    destruct items as [|a [|b [|]]]; try done.
    unfold ret, setitem in H. rewrite Hl in H.
    rewrite lookup_insert_eq in H. injection H as <-.
    eexists. by rewrite insert_insert_eq.
  - injection H as <-. exists d. by rewrite insert_id.
Qed.

Section AggregationRun.
Context {TimeInterval Interval : Type}.
Variable parse_time_interval : TimeInterval → bool → exn + Interval.
Variable serialize_time : Interval → bool → exn + (value * value).
Variable upd : value → value → M unit.

Abbreviation aggregation' := (aggregation parse_time_interval serialize_time upd).

(** [other_args] comes in at the end only. *)
Lemma aggregation_split evalscript time_interval aggregation_interval
    size resolution other_args h :
  aggregation' evalscript time_interval aggregation_interval
    size resolution other_args h =
  (let* p := aggregation' evalscript time_interval aggregation_interval
               size resolution VNone in
   merge_other_args upd p other_args) h.
Proof.
  unfold aggregation, merge_other_args, bind, lift.
  destruct (parse_time_interval time_interval true) as [e|iv]; [done|].
  destruct (serialize_time iv true) as [e|[s e]]; [done|].
  cbn beta iota. alloc lr Hlr. alloc la Hla. alloc lp Hlp.
  repeat (case_match; try done).
Qed.

Lemma body_split request_bounds request_data aggregation calculations
    other_args h :
  body upd request_bounds request_data aggregation calculations other_args h =
  (let* p := body upd request_bounds request_data aggregation calculations
               VNone in
   merge_other_args upd p other_args) h.
Proof.
  unfold body, merge_other_args, bind.
  repeat (case_match; try done).
Qed.

Lemma aggregation_unfold evalscript time_interval aggregation_interval
    size resolution other_args h :
  aggregation' evalscript time_interval aggregation_interval
    size resolution other_args h =
  (let* interval := lift (parse_time_interval time_interval true) in
   let* (start_time, end_time) := lift (serialize_time interval true) in
   let* time_range := new_dict [("from", start_time); ("to", end_time)] in
   let* aggregation_of := new_dict [("of", aggregation_interval)] in
   let* payload := new_dict [("evalscript", evalscript);
                              ("timeRange", time_range);
                              ("aggregationInterval", aggregation_of)] in
   do set_pair payload "width" "height" size in
   do set_pair payload "resx" "resy" resolution in
   merge_other_args upd payload other_args) h.
Proof.
  unfold aggregation, merge_other_args, set_pair, bind, lift.
  destruct (parse_time_interval time_interval true) as [e|iv]; [done|].
  destruct (serialize_time iv true) as [e|[s e]]; [done|].
  cbn beta iota. alloc lr Hlr. alloc la Hla. alloc lp Hlp.
  repeat (case_match; try done).
Qed.

(** Without [other_args], [aggregation] returns once the time
    utilities have, for a size and a resolution that are [None] or a
    pair. *)
Lemma aggregation_run h evalscript time_interval aggregation_interval
    size resolution interval start_time end_time :
  parse_time_interval time_interval true = inr interval →
  serialize_time interval true = inr (start_time, end_time) →
  optional is_pair size = true →
  optional is_pair resolution = true →
  ∃ hf lp lr la,
    aggregation' evalscript time_interval aggregation_interval
      size resolution VNone h = Ok (VRef lp) hf ∧
    aggregation_built start_time end_time aggregation_interval h hf lp lr la
      ([("evalscript", evalscript); ("timeRange", VRef lr);
        ("aggregationInterval", VRef la)]
       ++ pair_items "width" "height" size
       ++ pair_items "resx" "resy" resolution).
Proof.
  intros Hp Hs Hsize Hres.
  rewrite aggregation_unfold.
  unfold bind, lift. rewrite Hp, Hs. cbn beta iota.
  alloc lr Hlr. alloc la Hla. alloc lp Hlp.
  apply lookup_insert_None in Hla as [Hla ?].
  apply lookup_insert_None in Hlp as [Hlp ?].
  apply lookup_insert_None in Hlp as [Hlp ?].
  set (h3 := <[lp := _]> _).
  assert (Hh3 : h ⊆ h3).
  { unfold h3.
    do 3 (etrans; [|apply insert_subseteq; by rewrite ?lookup_insert_None]).
    done. }
  assert (Hsize' : size = VNone ∨ ∃ a b, size = VTuple [a; b]).
  { destruct size as [| | | | |[|a [|b [|]]]|]; try done; eauto. }
  assert (Hres' : resolution = VNone ∨ ∃ a b, resolution = VTuple [a; b]).
  { destruct resolution as [| | | | |[|a [|b [|]]]|]; try done; eauto. }
  assert (Hfin : ∀ d (hx : heap),
    hx = <[lp := ODict d]> h3 →
    aggregation_built start_time end_time aggregation_interval h hx lp lr la d).
  { intros d hx ->. split; try done.
    - by apply insert_subseteq_r.
    - by rewrite lookup_insert_eq.
    - unfold h3. rewrite !lookup_insert_ne by done.
      by rewrite lookup_insert_eq.
    - unfold h3. rewrite !lookup_insert_ne by done.
      by rewrite lookup_insert_eq. }
  assert (Hl3 : h3 !! lp = Some (ODict [("evalscript", evalscript);
                  ("timeRange", VRef lr); ("aggregationInterval", VRef la)])).
  { unfold h3. by rewrite lookup_insert_eq. }
  destruct Hsize' as [->|(w & hh & ->)], Hres' as [->|(rx & ry & ->)].
  - rewrite !set_pair_none. cbn beta iota.
    exists h3, lp, lr, la. split; [done|]. apply Hfin. by rewrite insert_id.
  - rewrite set_pair_none. cbn beta iota.
    rewrite (set_pair_pair _ _ _ _ _ _ _ Hl3). cbn beta iota.
    eexists _, lp, lr, la. split; [done|]. by apply Hfin.
  - rewrite (set_pair_pair _ _ _ _ _ _ _ Hl3). cbn beta iota.
    rewrite set_pair_none. cbn beta iota.
    eexists _, lp, lr, la. split; [done|]. by apply Hfin.
  - rewrite (set_pair_pair _ _ _ _ _ _ _ Hl3). cbn beta iota.
    erewrite set_pair_pair by apply lookup_insert_eq. cbn beta iota.
    eexists _, lp, lr, la. split; [done|].
    apply Hfin. by rewrite insert_insert_eq.
Qed.

(** Whenever [aggregation] returns without [other_args], it has kept
    every object of the store and returns a new dictionary. *)
Lemma aggregation_returned h evalscript time_interval aggregation_interval
    size resolution p hf :
  aggregation' evalscript time_interval aggregation_interval
    size resolution VNone h = Ok p hf →
  h ⊆ hf ∧ ∃ lp d, p = VRef lp ∧ h !! lp = None ∧ hf !! lp = Some (ODict d).
Proof.
  rewrite aggregation_unfold. unfold bind, lift.
  destruct (parse_time_interval time_interval true) as [e|iv]; [done|].
  destruct (serialize_time iv true) as [e|[s e]]; [done|].
  cbn beta iota. alloc lr Hlr. alloc la Hla. alloc lp Hlp.
  apply lookup_insert_None in Hla as [Hla ?].
  apply lookup_insert_None in Hlp as [Hlp ?].
  apply lookup_insert_None in Hlp as [Hlp ?].
  set (h3 := <[lp := _]> _).
  assert (Hh3 : h ⊆ h3).
  { unfold h3.
    do 3 (etrans; [|apply insert_subseteq; by rewrite ?lookup_insert_None]).
    done. }
  assert (Hl3 : h3 !! lp = Some (ODict [("evalscript", evalscript);
                  ("timeRange", VRef lr); ("aggregationInterval", VRef la)])).
  { unfold h3. by rewrite lookup_insert_eq. }
  destruct (set_pair (VRef lp) "width" "height" size h3)
    as [[] h4|] eqn:H4; [|done].
  destruct (set_pair_inv _ _ _ _ _ _ _ Hl3 H4) as (d4 & ->).
  destruct (set_pair (VRef lp) "resx" "resy" resolution _)
    as [[] h5|] eqn:H5; [|done].
  edestruct (set_pair_inv lp "resx" "resy" resolution) as (d5 & ->);
    [apply lookup_insert_eq | exact H5 |].
  intros Hm. change (Ok (VRef lp) (<[lp:=ODict d5]> (<[lp:=ODict d4]> h3))
                     = Ok p hf) in Hm.
  injection Hm as <- <-. split.
  - do 2 (apply insert_subseteq_r; [done|]). done.
  - exists lp, d5. by rewrite lookup_insert_eq.
Qed.

End AggregationRun.

(** ** [other_args] *)

Lemma ensure_frame v h h' l o :
  ensure_dataFilter v h = Ok tt h' → v ≠ VRef l →
  h !! l = Some o → h' !! l = Some o.
Proof.
  unfold ensure_dataFilter, bind. intros He Hv Hl.
  destruct (contains "dataFilter" v h) as [present hc|] eqn:Hc; [|done].
  assert (hc = h) as ->.
  { unfold contains in Hc. repeat case_match; congruence. }
  destruct present; simpl in He; [by injection He as <-|].
  pose proof (fresh_lookup h) as Hf. set (e := fresh (dom h)) in *.
  unfold new_dict, setitem in He. fold e in He.
  destruct v as [| | | | | |l']; try done.
  destruct (<[e:=ODict []]> h !! l') as [[d|vs]|]; try done.
  injection He as <-.
  assert (l' ≠ l) by congruence.
  assert (e ≠ l) by congruence.
  by rewrite !lookup_insert_ne.
Qed.

Lemma for_each_frame items l o : ∀ h h',
  for_each items ensure_dataFilter h = Ok tt h' → VRef l ∉ items →
  h !! l = Some o → h' !! l = Some o.
Proof.
  induction items as [|v items IH]; intros h h' Hrun Hnin Hl; simpl in Hrun.
  { by injection Hrun as <-. }
  unfold bind in Hrun.
  destruct (ensure_dataFilter v h) as [[] h1|] eqn:He; [|done].
  apply not_elem_of_cons in Hnin as [Hv Hnin].
  eapply IH; [exact Hrun | done |].
  eapply ensure_frame; [exact He | congruence | done].
Qed.

Section OtherArgs.
Variable upd : value → value → M unit.

Lemma merge_no_other_args h hf p other_args :
  no_other_args h other_args → h ⊆ hf →
  merge_other_args upd p other_args hf = Ok p hf.
Proof.
  intros [->|Hd] Hsub; [done|].
  destruct other_args; try done. simpl in Hd.
  destruct (h !! l) as [[d|]|] eqn:Hl; try done. injection Hd as ->.
  unfold merge_other_args, bind. simpl.
  by rewrite (lookup_weaken _ _ _ _ Hl Hsub).
Qed.

(** An [other_args] that is left out, or empty and apart from the
    items, has no part in [body]. *)
Lemma body_other_args_unused
    h request_bounds request_data aggregation calculations other_args items :
  iterate request_data h = Ok items h →
  other_args_unused h items other_args →
  body upd request_bounds request_data aggregation calculations other_args h
  = body upd request_bounds request_data aggregation calculations VNone h.
Proof.
  intros Hit [->|[Hd Hnin]]; [done|].
  destruct other_args as [| | | | | |lo]; try done. simpl in Hd.
  destruct (h !! lo) as [[d|]|] eqn:Hlo; try done. injection Hd as ->.
  rewrite body_split. unfold bind at 1.
  destruct (body upd request_bounds request_data aggregation calculations
              VNone h) as [p hf|] eqn:Hb; [|done].
  destruct (body_returned upd _ _ _ _ _ _ _ Hb) as (items' & h1 & Hit' & Hrun).
  rewrite Hit in Hit'. injection Hit' as <-.
  destruct (body_after_loop upd h request_bounds request_data aggregation
              calculations items h1 Hit Hrun)
    as (hf' & lp & li & c & Hb' & [Hsub _ _ _ _ _]).
  rewrite Hb in Hb'. injection Hb' as -> <-.
  apply (merge_no_other_args h1); [|done].
  right. simpl. by rewrite (for_each_frame _ _ _ _ _ Hrun Hnin Hlo).
Qed.
End OtherArgs.

(** ** Properties of [body], [aggregation] and the constructor *)

Section Properties.
Context {TimeInterval Interval BBox Geometry MimeType Kwargs Base : Type}.
Variable parse_time_interval : TimeInterval → bool → exn + Interval.
Variable serialize_time : Interval → bool → exn + (value * value).
Variable upd : value → value → M unit.
Variable bounds : option BBox → option Geometry → M value.
Variable JSON : MimeType.
Variable base_init : MimeType → value → Kwargs → heap → exn + Base.

Abbreviation aggregation' :=
  (aggregation parse_time_interval serialize_time upd).

(** C1, as the code has it.  [body] on a sequence of input-data
    dictionaries, with [other_args] left out or an empty dictionary
    that is not one of the elements, returns a payload whose
    [input.data] is that sequence, in which every element now has a
    ['dataFilter'] key: an element that had the key is the dictionary
    it was, an element that lacked it has gained the key, bound to a
    new empty dictionary. *)
Theorem body_every_input_has_dataFilter
    h request_bounds request_data aggregation calculations other_args items :
  iterate request_data h = Ok items h →
  Forall (dict_ref h) items →
  other_args_unused h items other_args →
  ∃ p hf input,
    body upd request_bounds request_data aggregation calculations
      other_args h = Ok p hf ∧
    getitem hf p "input" = Some input ∧
    getitem hf input "data" = Some request_data ∧
    iterate request_data hf = Ok items hf ∧
    Forall (has_dataFilter hf) items ∧
    ∀ l d, VRef l ∈ items → h !! l = Some (ODict d) →
      match dict_get d "dataFilter" with
      | Some _ => hf !! l = Some (ODict d)
      | None => ∃ e, h !! e = None ∧ hf !! e = Some (ODict []) ∧
                     hf !! l = Some (ODict (d ++ [("dataFilter", VRef e)]))
      end.
Proof.
  intros Hit Hwf Hno. rewrite (body_other_args_unused upd _ _ _ _ _ _ _ Hit Hno).
  destruct (body_run upd h request_bounds request_data aggregation
              calculations items Hit Hwf)
    as (hf & h1 & lp & li & c & Hrun & Hn & Hb).
  destruct Hb as [Hsub _ _ Hp Hi _].
  exists (VRef lp), hf, (VRef li). split; [done|].
  split; [unfold getitem; simpl; by rewrite Hp|].
  split; [unfold getitem; simpl; by rewrite Hi|].
  split; [by eapply iterate_stable|].
  split; [by eapply normalized_has|].
  intros l d Hin Hl. by eapply normalized_elem.
Qed.

(** C7, as the code has it.  [body] writes into the caller's
    [request_data].  With [other_args] left out or an empty dictionary
    that is not one of the elements: when [body] has returned, every
    element of the sequence that lacked ['dataFilter'] is the
    dictionary it was with that one key added at the end, bound to a
    new empty dictionary; every other object of the caller's store is
    exactly what it was, among them the elements that had the key, the
    sequence itself, and [request_bounds], [aggregation] and
    [calculations] where they are not themselves elements of the
    sequence. *)
Theorem body_mutates_only_missing_dataFilter
    h request_bounds request_data aggregation calculations other_args items :
  iterate request_data h = Ok items h →
  Forall (dict_ref h) items →
  other_args_unused h items other_args →
  ∃ p hf,
    body upd request_bounds request_data aggregation calculations
      other_args h = Ok p hf ∧
    (∀ l d, VRef l ∈ items → h !! l = Some (ODict d) →
       dict_get d "dataFilter" = None →
       ∃ e, h !! e = None ∧ hf !! e = Some (ODict []) ∧
            hf !! l = Some (ODict (d ++ [("dataFilter", VRef e)]))) ∧
    (∀ l o, h !! l = Some o →
       ¬ (VRef l ∈ items ∧ lacks_dataFilter h l) →
       hf !! l = Some o) ∧
    (∀ arg l o, arg ∈ [request_bounds; aggregation; calculations] →
       arg = VRef l → h !! l = Some o → VRef l ∉ items →
       hf !! l = Some o).
Proof.
  intros Hit Hwf Hno. rewrite (body_other_args_unused upd _ _ _ _ _ _ _ Hit Hno).
  destruct (body_run upd h request_bounds request_data aggregation
              calculations items Hit Hwf)
    as (hf & h1 & lp & li & c & Hrun & Hn & Hb).
  destruct Hb as [Hsub _ _ _ _ _].
  assert (Hframe : ∀ l o, h !! l = Some o →
            ¬ (VRef l ∈ items ∧ lacks_dataFilter h l) → hf !! l = Some o).
  { intros l o Hl Hno'. eapply lookup_weaken; [|exact Hsub].
    by apply (norm_frame _ _ _ Hn). }
  exists (VRef lp), hf. split; [done|]. split; [|split].
  - intros l d Hin Hl Hd.
    pose proof (normalized_elem _ _ _ _ _ _ Hn Hsub Hin Hl) as He.
    by rewrite Hd in He.
  - exact Hframe.
  - intros arg l o _ _ Hl Hnin. apply Hframe; [done|]. by intros [? _].
Qed.

(** C2, as the code has it.  On a sequence of input-data dictionaries,
    with [other_args] left out or an empty dictionary that is not one
    of the elements: for [calculations=None] the payload's
    ['calculations'] is [{'default': {}}]; for any other value, so for
    any dictionary, empty or not, it is that value itself, and the
    dictionary is what it was when it is not itself an element of the
    sequence. *)
Theorem body_calculations_default_only_for_None
    h request_bounds request_data aggregation calculations other_args items :
  iterate request_data h = Ok items h →
  Forall (dict_ref h) items →
  other_args_unused h items other_args →
  ∃ p hf c,
    body upd request_bounds request_data aggregation calculations
      other_args h = Ok p hf ∧
    getitem hf p "calculations" = Some c ∧
    match calculations with
    | VNone => ∃ default,
        as_dict hf c = Some [("default", default)] ∧
        as_dict hf default = Some []
    | _ =>
        c = calculations ∧
        ∀ l o, calculations = VRef l → h !! l = Some o →
               VRef l ∉ items → hf !! l = Some o
    end.
Proof.
  intros Hit Hwf Hno. rewrite (body_other_args_unused upd _ _ _ _ _ _ _ Hit Hno).
  destruct (body_run upd h request_bounds request_data aggregation
              calculations items Hit Hwf)
    as (hf & h1 & lp & li & c & Hrun & Hn & Hb).
  destruct Hb as [Hsub _ _ Hp _ Hc].
  exists (VRef lp), hf, c. split; [done|].
  split; [unfold getitem; simpl; by rewrite Hp|].
  assert (Hframe : ∀ l o, h !! l = Some o → VRef l ∉ items →
            hf !! l = Some o).
  { intros l o Hl Hnin. eapply lookup_weaken; [|exact Hsub].
    apply (norm_frame _ _ _ Hn); [done|]. by intros [? _]. }
  destruct calculations; simpl in Hc; try (split; [done|]);
    try (intros l' o' Heq; intros; by eapply Hframe).
  destruct Hc as (lc & ld & -> & _ & _ & Hlc & Hld).
  exists (VRef ld). simpl. by rewrite Hlc, Hld.
Qed.

(** C10, as the code has it.  An empty dictionary passed as
    [other_args] that is not one of the elements of [request_data] has
    on [body] and on [aggregation] the effect of [other_args=None]:
    the same result or exception and the same store. *)
Theorem empty_other_args_is_None
    h lo request_bounds request_data aggregation calculations
    evalscript time_interval aggregation_interval size resolution :
  h !! lo = Some (ODict []) →
  (∀ items, iterate request_data h = Ok items h → VRef lo ∉ items) →
  body upd request_bounds request_data aggregation calculations (VRef lo) h
    = body upd request_bounds request_data aggregation calculations VNone h
  ∧
  aggregation' evalscript time_interval aggregation_interval
    size resolution (VRef lo) h
    = aggregation' evalscript time_interval aggregation_interval
        size resolution VNone h.
Proof.
  intros Hlo Hsep. split.
  - rewrite body_split. unfold bind at 1.
    destruct (body upd request_bounds request_data aggregation calculations
                VNone h) as [p hf|] eqn:Hb; [|done].
    destruct (body_returned upd _ _ _ _ _ _ _ Hb) as (items & h1 & Hit & Hrun).
    destruct (body_after_loop upd h request_bounds request_data aggregation
                calculations items h1 Hit Hrun)
      as (hf' & lp & li & c & Hb' & [Hsub _ _ _ _ _]).
    rewrite Hb in Hb'. injection Hb' as -> <-.
    apply (merge_no_other_args upd h1); [|done].
    right. simpl.
    by rewrite (for_each_frame _ _ _ _ _ Hrun (Hsep _ Hit) Hlo).
  - rewrite aggregation_split. unfold bind at 1.
    destruct (aggregation' evalscript time_interval aggregation_interval
                size resolution VNone h) as [p hf|] eqn:Ha; [|done].
    apply aggregation_returned in Ha as [Hsub _].
    apply (merge_no_other_args upd h); [|done].
    right. simpl. by rewrite Hlo.
Qed.

(** Without [other_args], or with an empty one, [aggregation] returns
    what it has built. *)
Lemma aggregation_no_other_args h evalscript time_interval
    aggregation_interval size resolution other_args
    interval start_time end_time :
  parse_time_interval time_interval true = inr interval →
  serialize_time interval true = inr (start_time, end_time) →
  optional is_pair size = true →
  optional is_pair resolution = true →
  no_other_args h other_args →
  ∃ hf lp lr la,
    aggregation' evalscript time_interval aggregation_interval
      size resolution other_args h = Ok (VRef lp) hf ∧
    aggregation_built start_time end_time aggregation_interval h hf lp lr la
      ([("evalscript", evalscript); ("timeRange", VRef lr);
        ("aggregationInterval", VRef la)]
       ++ pair_items "width" "height" size
       ++ pair_items "resx" "resy" resolution).
Proof.
  intros Hp Hs Hsize Hres Hno.
  destruct (aggregation_run parse_time_interval serialize_time upd h
              evalscript time_interval aggregation_interval size resolution
              interval start_time end_time Hp Hs Hsize Hres)
    as (hf & lp & lr & la & Ha & Hb).
  exists hf, lp, lr, la. split; [|done].
  rewrite aggregation_split. unfold bind at 1. rewrite Ha.
  apply (merge_no_other_args upd h); [done | apply Hb].
Qed.

(** C3, as the code has it.  When [other_args] is left out or empty
    and the time utilities accept the interval, [aggregation] returns
    a payload in which a size [(w, h)] given without a resolution
    shows as [width=w], [height=h] and no ['resx'] or ['resy']; a
    resolution [(x, y)] given without a size shows as [resx=x],
    [resy=y] and no ['width'] or ['height']; and with neither given
    none of the four keys is there. *)
Theorem aggregation_size_resolution_keys
    h evalscript time_interval aggregation_interval size resolution
    other_args interval start_time end_time :
  parse_time_interval time_interval true = inr interval →
  serialize_time interval true = inr (start_time, end_time) →
  no_other_args h other_args →
  optional is_pair size = true →
  optional is_pair resolution = true →
  ∃ p hf d,
    aggregation' evalscript time_interval aggregation_interval
      size resolution other_args h = Ok p hf ∧
    as_dict hf p = Some d ∧
    (∀ w hh, size = VTuple [w; hh] → resolution = VNone →
       dict_get d "width" = Some w ∧ dict_get d "height" = Some hh ∧
       dict_get d "resx" = None ∧ dict_get d "resy" = None) ∧
    (∀ x y, resolution = VTuple [x; y] → size = VNone →
       dict_get d "resx" = Some x ∧ dict_get d "resy" = Some y ∧
       dict_get d "width" = None ∧ dict_get d "height" = None) ∧
    (size = VNone → resolution = VNone →
       dict_get d "width" = None ∧ dict_get d "height" = None ∧
       dict_get d "resx" = None ∧ dict_get d "resy" = None).
Proof.
  intros Hp Hs Hno Hsize Hres.
  destruct (aggregation_no_other_args h evalscript time_interval
              aggregation_interval size resolution other_args
              interval start_time end_time Hp Hs Hsize Hres Hno)
    as (hf & lp & lr & la & Ha & Hb).
  eexists (VRef lp), hf, _. split; [done|].
  split; [simpl; by rewrite (ab_payload_dict _ _ _ _ _ _ _ _ _ Hb)|].
  split; [|split].
  - by intros w hh -> ->.
  - by intros x y -> ->.
  - by intros -> ->.
Qed.

(** C6.  With [other_args] left out and neither size nor resolution,
    [aggregation] returns, once the time utilities have, a payload
    with exactly the keys ['evalscript'], bound to the given
    evalscript, ['timeRange'], bound to a dictionary with ['from'] and
    ['to'] holding the serialized start and end of the interval, and
    ['aggregationInterval'], bound to [{'of': aggregation_interval}].
    The interval is parsed with [allow_undefined] set and serialized
    with [use_tz] set. *)
Theorem aggregation_payload_shape
    h evalscript time_interval aggregation_interval
    interval start_time end_time :
  parse_time_interval time_interval true = inr interval →
  serialize_time interval true = inr (start_time, end_time) →
  ∃ p hf time_range aggregation_of,
    aggregation' evalscript time_interval aggregation_interval
      VNone VNone VNone h = Ok p hf ∧
    as_dict hf p = Some [("evalscript", evalscript);
                         ("timeRange", time_range);
                         ("aggregationInterval", aggregation_of)] ∧
    as_dict hf time_range = Some [("from", start_time); ("to", end_time)] ∧
    as_dict hf aggregation_of = Some [("of", aggregation_interval)].
Proof.
  intros Hp Hs.
  destruct (aggregation_run parse_time_interval serialize_time upd h
              evalscript time_interval aggregation_interval VNone VNone
              interval start_time end_time Hp Hs eq_refl eq_refl)
    as (hf & lp & lr & la & Ha & [_ _ _ _ Hd Hr Hi]).
  exists (VRef lp), hf, (VRef lr), (VRef la). split; [done|].
  simpl. by rewrite Hd, Hr, Hi.
Qed.

(** C9, as the code has it.  [aggregation] raises nothing of its own.
    For a size that is [None] or a pair of integers, a resolution that
    is [None] or a pair, and an [other_args] that is [None] or a
    dictionary: an exception of the time utilities comes out of
    [aggregation] as it is, with the store untouched; when they
    return, the payload is built without error; with [other_args] left
    out or empty that payload is returned; with any other [other_args]
    it is handed to the merge utility, and [aggregation] returns it
    when the merge utility returns and raises what the merge utility
    raises, as it is. *)
Theorem aggregation_raises_only_collaborator_errors
    h evalscript time_interval aggregation_interval size resolution
    other_args :
  optional is_int_pair size = true →
  optional is_pair resolution = true →
  other_args = VNone ∨ dict_ref h other_args →
  (∀ e, parse_time_interval time_interval true = inl e →
     aggregation' evalscript time_interval aggregation_interval
       size resolution other_args h = Raise e h) ∧
  (∀ interval e,
     parse_time_interval time_interval true = inr interval →
     serialize_time interval true = inl e →
     aggregation' evalscript time_interval aggregation_interval
       size resolution other_args h = Raise e h) ∧
  (∀ interval times,
     parse_time_interval time_interval true = inr interval →
     serialize_time interval true = inr times →
     ∃ p hf,
       aggregation' evalscript time_interval aggregation_interval
         size resolution VNone h = Ok p hf ∧
       (no_other_args h other_args →
        aggregation' evalscript time_interval aggregation_interval
          size resolution other_args h = Ok p hf) ∧
       (¬ no_other_args h other_args →
        aggregation' evalscript time_interval aggregation_interval
          size resolution other_args h
        = match upd p other_args hf with
          | Ok _ h' => Ok p h'
          | Raise e h' => Raise e h'
          end)).
Proof.
  intros Hsize Hres Hother. split; [|split].
  - intros e Hp. unfold aggregation, bind, lift. by rewrite Hp.
  - intros iv e Hp Hs. unfold aggregation, bind, lift. by rewrite Hp, Hs.
  - intros iv [s e] Hp Hs.
    assert (Hsize' : optional is_pair size = true).
    { by destruct size as [| | | | |[|[] [|[] [|]]]|]. }
    destruct (aggregation_run parse_time_interval serialize_time upd h
                evalscript time_interval aggregation_interval size resolution
                iv s e Hp Hs Hsize' Hres)
      as (hf & lp & lr & la & Ha & Hb).
    pose proof (ab_extends _ _ _ _ _ _ _ _ _ Hb) as Hsub.
    exists (VRef lp), hf. split; [done|]. split.
    + intros Hno. rewrite aggregation_split. unfold bind at 1. rewrite Ha.
      by apply (merge_no_other_args upd h).
    + intros Hyes. rewrite aggregation_split. unfold bind at 1. rewrite Ha.
      unfold merge_other_args, bind.
      destruct Hother as [->|(l & d & -> & Hl)]; [by destruct Hyes; left|].
      simpl. rewrite (lookup_weaken _ _ _ _ Hl Hsub).
      destruct d as [|item d].
      { destruct Hyes. right. simpl. by rewrite Hl. }
      simpl. by destruct (upd (VRef lp) (VRef l) hf).
Qed.

(** C4.  The constructor, given a list with one input-data dictionary
    that lacks ['dataFilter'] and no [calculations], builds a payload
    whose [input.data[0].dataFilter] is [{}] and whose
    ['calculations'] is [{'default': {}}], and stores it with the MIME
    type [JSON]: that is the object it returns, unless the initializer
    of the base class raises. *)
Theorem init_stores_payload_and_mime_type
    h aggregation l_data l_entry entry bbox geometry kwargs
    request_bounds h1 :
  bounds bbox geometry h = Ok request_bounds h1 →
  h1 !! l_data = Some (OList [VRef l_entry]) →
  h1 !! l_entry = Some (ODict entry) →
  dict_get entry "dataFilter" = None →
  ∃ p hf,
    __init__ upd bounds JSON base_init
      aggregation (VRef l_data) bbox geometry VNone kwargs h
    = match base_init JSON p kwargs hf with
      | inr b => Ok {| mime_type := JSON; payload := p; base := b |} hf
      | inl e => Raise e hf
      end ∧
    ∃ input filter calc default,
      getitem hf p "input" = Some input ∧
      getitem hf input "data" = Some (VRef l_data) ∧
      hf !! l_data = Some (OList [VRef l_entry]) ∧
      getitem hf (VRef l_entry) "dataFilter" = Some filter ∧
      as_dict hf filter = Some [] ∧
      getitem hf p "calculations" = Some calc ∧
      as_dict hf calc = Some [("default", default)] ∧
      as_dict hf default = Some [].
Proof.
  intros Hbounds Hdata Hentry Hk.
  assert (Hit : iterate (VRef l_data) h1 = Ok [VRef l_entry] h1).
  { simpl. by rewrite Hdata. }
  assert (Hwf : Forall (dict_ref h1) [VRef l_entry]).
  { constructor; [by exists l_entry, entry | done]. }
  destruct (body_run upd h1 request_bounds (VRef l_data) aggregation
              VNone _ Hit Hwf)
    as (hf & h2 & lp & li & c & Hrun & Hn & Hb).
  destruct Hb as [Hsub _ _ Hp Hi Hc].
  exists (VRef lp), hf. split.
  { unfold __init__, bind. rewrite Hbounds, Hrun. unfold lift.
    by destruct (base_init JSON (VRef lp) kwargs hf). }
  destruct Hc as (lc & ld & -> & _ & _ & Hlc & Hld).
  destruct (norm_filled _ _ _ Hn l_entry entry) as (e & _ & He & Hupd);
    [by apply list_elem_of_singleton | done | done |].
  exists (VRef li), (VRef e), (VRef lc), (VRef ld).
  unfold getitem. simpl.
  rewrite Hp, Hi, Hlc, Hld.
  rewrite (lookup_weaken _ _ _ _ He Hsub), (lookup_weaken _ _ _ _ Hupd Hsub).
  simpl. rewrite (dict_get_app_last _ _ _ Hk).
  repeat split; try done.
  eapply lookup_weaken; [|exact Hsub].
  apply (norm_frame _ _ _ Hn); [done|].
  intros [_ (d & Hd & _)]. congruence.
Qed.

End Properties.

(** ** The module at work on the example store *)

Import Example.

Ltac dict_refs :=
  repeat first [ apply List.Forall_nil
               | apply List.Forall_cons;
                 [eexists _, _; split; reflexivity|] ].

Ltac no_elem H :=
  repeat (apply elem_of_cons in H as [H|H]; [discriminate H|]);
  by apply elem_of_nil in H.

Ltac unused_empty :=
  right; split; [reflexivity | let H := fresh in intros H; no_elem H].

Lemma body_every_input_has_dataFilter_witness :
  ∃ p hf,
    Reference.body (VRef l_bounds) (VRef l_data) (VRef l_aggregation)
      VNone (VRef l_empty) store = Ok p hf ∧
    Forall (has_dataFilter hf) [VRef l_first; VRef l_second].
Proof.
  destruct (body_every_input_has_dataFilter Reference._update_other_args
              store (VRef l_bounds) (VRef l_data) (VRef l_aggregation) VNone
              (VRef l_empty) [VRef l_first; VRef l_second])
    as (p & hf & input & Hb & _ & _ & _ & Hall & _).
  - reflexivity.
  - dict_refs.
  - unused_empty.
  - exists p, hf. split; [exact Hb | exact Hall].
Defined.

(** C1 fails when [other_args] is given: with
    [other_args={'input': {'data': [{'type': 'x'}]}}] the merge puts
    that list in the place of [request_data], and the payload's
    [input.data] has an element without ['dataFilter']. *)
Lemma body_other_args_replaces_data :
  ∃ p hf input data entry,
    Reference.body (VRef l_bounds) (VRef l_data) (VRef l_aggregation)
      VNone (VRef OverrideExample.l_replace_data) OverrideExample.store
      = Ok p hf ∧
    getitem hf p "input" = Some input ∧
    getitem hf input "data" = Some data ∧
    iterate data hf = Ok [entry] hf ∧
    as_dict hf entry = Some [("type", VStr "x")] ∧
    getitem hf entry "dataFilter" = None.
Proof.
  eexists _, _, _, _, _. split; [vm_compute; reflexivity|].
  repeat split; vm_compute; reflexivity.
Qed.

Lemma body_calculations_default_only_for_None_witness :
  ∃ p hf c default,
    Reference.body (VRef l_bounds) (VRef l_data) (VRef l_aggregation)
      VNone (VRef l_empty) store = Ok p hf ∧
    getitem hf p "calculations" = Some c ∧
    as_dict hf c = Some [("default", default)] ∧
    as_dict hf default = Some [].
Proof.
  destruct (body_calculations_default_only_for_None
              Reference._update_other_args
              store (VRef l_bounds) (VRef l_data) (VRef l_aggregation) VNone
              (VRef l_empty) [VRef l_first; VRef l_second])
    as (p & hf & c & Hb & Hc & default & Hd & He).
  - reflexivity.
  - dict_refs.
  - unused_empty.
  - exists p, hf, c, default.
    split; [exact Hb|]. split; [exact Hc|]. split; [exact Hd | exact He].
Defined.

(** C2 also needs [other_args] to be left out or empty: with
    [calculations=None] and
    [other_args={'calculations': {'custom': {}}}] the merge writes into
    the default, which then has two items. *)
Lemma body_other_args_changes_calculations :
  ∃ p hf c default custom,
    Reference.body (VRef l_bounds) (VRef l_data) (VRef l_aggregation)
      VNone (VRef OverrideExample.l_into_calculations) OverrideExample.store
      = Ok p hf ∧
    getitem hf p "calculations" = Some c ∧
    as_dict hf c = Some [("default", default); ("custom", custom)].
Proof.
  eexists _, _, _, _, _. split; [vm_compute; reflexivity|].
  repeat split; vm_compute; reflexivity.
Qed.

(** C2 fails for an empty dictionary: it is not [None], so it is what
    the payload gets, and the payload has no ['default'] calculation. *)
Lemma body_empty_calculations_not_defaulted :
  ∃ p hf c,
    Reference.body (VRef l_bounds) (VRef l_data) (VRef l_aggregation)
      (VRef l_empty) VNone store = Ok p hf ∧
    getitem hf p "calculations" = Some c ∧
    as_dict hf c = Some [] ∧
    getitem hf c "default" = None.
Proof. by eexists _, _, _. Qed.

Lemma aggregation_size_resolution_keys_witness :
  ∃ p hf,
    Reference.aggregation (VStr "//VERSION=3") interval (VStr "P1D")
      (VTuple [VInt 512; VInt 512]) VNone (VRef l_empty) store = Ok p hf ∧
    getitem hf p "width" = Some (VInt 512) ∧
    getitem hf p "height" = Some (VInt 512) ∧
    getitem hf p "resx" = None ∧ getitem hf p "resy" = None.
Proof.
  destruct (aggregation_size_resolution_keys
              Reference.parse_time_interval Reference.serialize_time
              Reference._update_other_args
              store (VStr "//VERSION=3") interval (VStr "P1D")
              (VTuple [VInt 512; VInt 512]) VNone (VRef l_empty)
              interval (VStr "2020-01-01T00:00:00Z")
              (VStr "2020-02-01T00:00:00Z"))
    as (p & hf & d & Ha & Hd & Hsize & _).
  - reflexivity.
  - reflexivity.
  - by right.
  - reflexivity.
  - reflexivity.
  - destruct (Hsize _ _ eq_refl eq_refl) as (Hw & Hh & Hx & Hy).
    exists p, hf. split; [exact Ha|]. unfold getitem. rewrite Hd. simpl.
    split; [exact Hw|]. split; [exact Hh|]. split; [exact Hx | exact Hy].
Defined.

(** C3 fails when [other_args] is given: with [size=(512,512)], no
    resolution and [other_args={'resx': 1}], the payload has a ['resx']
    key. *)
Lemma aggregation_other_args_adds_resx :
  ∃ p hf,
    Reference.aggregation (VStr "//VERSION=3") interval (VStr "P1D")
      (VTuple [VInt 512; VInt 512]) VNone (VRef l_other) store = Ok p hf ∧
    getitem hf p "width" = Some (VInt 512) ∧
    getitem hf p "height" = Some (VInt 512) ∧
    getitem hf p "resx" = Some (VInt 1).
Proof. by eexists _, _. Qed.

Lemma init_stores_payload_and_mime_type_witness :
  ∃ object hf filter calc default,
    Reference.__init__ (VRef l_aggregation) (VRef l_single)
      (Some (VTuple [VInt 0; VInt 0; VInt 1; VInt 1])) None VNone [] store
      = Ok object hf ∧
    mime_type object = Reference.JSON ∧
    getitem hf (VRef l_first) "dataFilter" = Some filter ∧
    as_dict hf filter = Some [] ∧
    getitem hf (payload object) "calculations" = Some calc ∧
    as_dict hf calc = Some [("default", default)] ∧
    as_dict hf default = Some [].
Proof.
  edestruct (init_stores_payload_and_mime_type
               Reference._update_other_args Reference.bounds Reference.JSON
               Reference.base_init
               store (VRef l_aggregation) l_single l_first
               [("type", VStr "sentinel-2-l1c")]
               (Some (VTuple [VInt 0; VInt 0; VInt 1; VInt 1])) None [])
    as (p & hf & Hinit & input & filter & calc & default
        & _ & _ & _ & Hfilter & Hempty & Hcalc & Hdefault & Hnone).
  - reflexivity.
  - reflexivity.
  - reflexivity.
  - reflexivity.
  - eexists _, hf, filter, calc, default.
    split; [exact Hinit|]. split; [reflexivity|].
    split; [exact Hfilter|]. split; [exact Hempty|].
    split; [exact Hcalc|]. split; [exact Hdefault | exact Hnone].
Defined.

Lemma body_payload_keys_witness :
  ∃ p hf input c,
    Reference.body (VRef l_bounds) (VRef l_data) (VRef l_aggregation)
      VNone VNone store = Ok p hf ∧
    as_dict hf p = Some [("input", input);
                         ("aggregation", VRef l_aggregation);
                         ("calculations", c)] ∧
    as_dict hf input = Some [("bounds", VRef l_bounds);
                             ("data", VRef l_data)].
Proof.
  destruct (body_payload_keys Reference._update_other_args
              store (VRef l_bounds) (VRef l_data) (VRef l_aggregation) VNone)
    as [Hreturns Hkeys].
  destruct (Hreturns [VRef l_first; VRef l_second]) as (p & hf & Hb).
  - reflexivity.
  - dict_refs.
  - destruct (Hkeys p hf Hb) as (input & c & Hp & Hi).
    by exists p, hf, input, c.
Defined.

Lemma aggregation_payload_shape_witness :
  ∃ p hf time_range aggregation_of,
    Reference.aggregation (VStr "//VERSION=3") interval (VStr "P1D")
      VNone VNone VNone store = Ok p hf ∧
    as_dict hf p = Some [("evalscript", VStr "//VERSION=3");
                         ("timeRange", time_range);
                         ("aggregationInterval", aggregation_of)] ∧
    as_dict hf time_range = Some [("from", VStr "2020-01-01T00:00:00Z");
                                  ("to", VStr "2020-02-01T00:00:00Z")] ∧
    as_dict hf aggregation_of = Some [("of", VStr "P1D")].
Proof.
  apply (aggregation_payload_shape
           Reference.parse_time_interval Reference.serialize_time
           Reference._update_other_args
           store (VStr "//VERSION=3") interval (VStr "P1D") interval);
    reflexivity.
Defined.

Lemma body_mutates_only_missing_dataFilter_witness :
  ∃ p hf e,
    Reference.body (VRef l_bounds) (VRef l_data) (VRef l_aggregation)
      VNone VNone store = Ok p hf ∧
    hf !! l_first = Some (ODict [("type", VStr "sentinel-2-l1c");
                                 ("dataFilter", VRef e)]) ∧
    hf !! e = Some (ODict []) ∧
    hf !! l_second = store !! l_second ∧
    hf !! l_filter = store !! l_filter ∧
    hf !! l_data = store !! l_data ∧
    hf !! l_bounds = store !! l_bounds ∧
    hf !! l_aggregation = store !! l_aggregation.
Proof.
  destruct (body_mutates_only_missing_dataFilter Reference._update_other_args
              store (VRef l_bounds) (VRef l_data) (VRef l_aggregation) VNone
              VNone [VRef l_first; VRef l_second])
    as (p & hf & Hb & Hfilled & Hframe & _).
  - reflexivity.
  - dict_refs.
  - by left.
  - destruct (Hfilled l_first [("type", VStr "sentinel-2-l1c")])
      as (e & _ & He & Hfirst).
    + apply elem_of_cons. by left.
    + reflexivity.
    + reflexivity.
    + exists p, hf, e. split; [exact Hb|]. split; [exact Hfirst|].
      split; [exact He|].
      repeat split; apply Hframe; try reflexivity.
      * intros [_ (d & Hd & Hk)]. vm_compute in Hd. injection Hd as <-.
        discriminate Hk.
      * intros [Hin _]. no_elem Hin.
      * intros [Hin _]. no_elem Hin.
      * intros [Hin _]. no_elem Hin.
      * intros [Hin _]. no_elem Hin.
Defined.


Lemma aggregation_raises_only_collaborator_errors_witness :
  (∃ p hf,
     Reference.aggregation (VStr "//VERSION=3") interval (VStr "P1D")
       (VTuple [VInt 512; VInt 512]) (VTuple [VInt 10; VInt 10])
       VNone store = Ok p hf ∧
     Reference.aggregation (VStr "//VERSION=3") interval (VStr "P1D")
       (VTuple [VInt 512; VInt 512]) (VTuple [VInt 10; VInt 10])
       (VRef l_empty) store = Ok p hf ∧
     Reference.aggregation (VStr "//VERSION=3") interval (VStr "P1D")
       (VTuple [VInt 512; VInt 512]) (VTuple [VInt 10; VInt 10])
       (VRef l_other) store
     = match Reference._update_other_args p (VRef l_other) hf with
       | Ok _ h' => Ok p h'
       | Raise e h' => Raise e h'
       end) ∧
  Reference.aggregation (VStr "//VERSION=3") (Some ("2020-01", "soon"))
    (VStr "P1D") (VTuple [VInt 512; VInt 512]) (VTuple [VInt 10; VInt 10])
    (VRef l_other) store = Raise (OtherError "InvalidInputError") store.
Proof.
  split.
  - destruct (aggregation_raises_only_collaborator_errors
                Reference.parse_time_interval Reference.serialize_time
                Reference._update_other_args
                store (VStr "//VERSION=3") interval (VStr "P1D")
                (VTuple [VInt 512; VInt 512]) (VTuple [VInt 10; VInt 10])
                (VRef l_other))
      as (_ & _ & Hbuilt).
    + reflexivity.
    + reflexivity.
    + right. exists l_other, [("resx", VInt 1)]. split; reflexivity.
    + destruct (Hbuilt interval (VStr "2020-01-01T00:00:00Z",
                                 VStr "2020-02-01T00:00:00Z")
                  eq_refl eq_refl) as (p & hf & Hnone & _ & Hmerge).
      destruct (aggregation_raises_only_collaborator_errors
                  Reference.parse_time_interval Reference.serialize_time
                  Reference._update_other_args
                  store (VStr "//VERSION=3") interval (VStr "P1D")
                  (VTuple [VInt 512; VInt 512]) (VTuple [VInt 10; VInt 10])
                  (VRef l_empty))
        as (_ & _ & Hbuilt').
      * reflexivity.
      * reflexivity.
      * right. exists l_empty, []. split; reflexivity.
      * destruct (Hbuilt' interval (VStr "2020-01-01T00:00:00Z",
                                    VStr "2020-02-01T00:00:00Z")
                    eq_refl eq_refl) as (p' & hf' & Hnone' & Hempty & _).
        unfold Reference.aggregation in *.
        rewrite Hnone in Hnone'. injection Hnone' as <- <-.
        exists p, hf. split; [exact Hnone|]. split.
        -- apply Hempty. by right.
        -- apply Hmerge. intros [H|H]; discriminate H.
  - destruct (aggregation_raises_only_collaborator_errors
                Reference.parse_time_interval Reference.serialize_time
                Reference._update_other_args
                store (VStr "//VERSION=3") (Some ("2020-01", "soon"))
                (VStr "P1D")
                (VTuple [VInt 512; VInt 512]) (VTuple [VInt 10; VInt 10])
                (VRef l_other))
      as (Hparse & _ & _).
    + reflexivity.
    + reflexivity.
    + right. exists l_other, [("resx", VInt 1)]. split; reflexivity.
    + by apply Hparse.
Defined.

(** C9 fails for a dictionary that the merge utility cannot merge:
    with [other_args={'evalscript': {'a': 1}}] the merge goes on
    inside the evalscript, a string, and its [TypeError] comes out of
    [aggregation], though the time utilities have returned. *)
Lemma aggregation_raises_merge_error :
  ∃ hf,
    Reference.aggregation (VStr "//VERSION=3") interval (VStr "P1D")
      (VTuple [VInt 512; VInt 512]) VNone
      (VRef OverrideExample.l_conflict) OverrideExample.store
    = Raise TypeError hf.
Proof. eexists. vm_compute. reflexivity. Qed.

(** C7 fails when [other_args] is given: with
    [other_args={'aggregation': {'x': 1}}] the merge goes on inside the
    caller's own aggregation dictionary, which gains the key ['x']. *)
Lemma body_other_args_writes_into_aggregation :
  ∃ p hf,
    Reference.body (VRef l_bounds) (VRef l_data) (VRef l_aggregation)
      VNone (VRef OverrideExample.l_into_aggregation) OverrideExample.store
      = Ok p hf ∧
    OverrideExample.store !! l_aggregation
      = Some (ODict [("evalscript", VStr "//VERSION=3")]) ∧
    hf !! l_aggregation
      = Some (ODict [("evalscript", VStr "//VERSION=3"); ("x", VInt 1)]).
Proof.
  eexists _, _. split; [vm_compute; reflexivity|].
  split; vm_compute; reflexivity.
Qed.

(** C10 fails when the empty dictionary passed as [other_args] is also
    an element of [request_data]: the loop gives it ['dataFilter'], so
    it counts as true when [body] comes to it and is merged, and the
    payload has a fourth key that the call with [other_args=None] does
    not give it. *)
Lemma body_empty_other_args_also_element :
  ∃ p hf p' hf' filter,
    Reference.body (VRef l_bounds) (VRef OverrideExample.l_alias)
      (VRef l_aggregation) VNone (VRef l_empty) OverrideExample.store
      = Ok p hf ∧
    Reference.body (VRef l_bounds) (VRef OverrideExample.l_alias)
      (VRef l_aggregation) VNone VNone OverrideExample.store
      = Ok p' hf' ∧
    OverrideExample.store !! l_empty = Some (ODict []) ∧
    getitem hf p "dataFilter" = Some filter ∧
    getitem hf' p' "dataFilter" = None.
Proof.
  eexists _, _, _, _, _. split; [vm_compute; reflexivity|].
  split; [vm_compute; reflexivity|].
  repeat split; vm_compute; reflexivity.
Qed.

Lemma empty_other_args_is_None_witness :
  Reference.body (VRef l_bounds) (VRef l_data) (VRef l_aggregation)
    VNone (VRef l_empty) store
  = Reference.body (VRef l_bounds) (VRef l_data) (VRef l_aggregation)
      VNone VNone store
  ∧
  Reference.aggregation (VStr "//VERSION=3") interval (VStr "P1D")
    (VTuple [VInt 512; VInt 512]) VNone (VRef l_empty) store
  = Reference.aggregation (VStr "//VERSION=3") interval (VStr "P1D")
      (VTuple [VInt 512; VInt 512]) VNone VNone store.
Proof.
  apply (empty_other_args_is_None
           Reference.parse_time_interval Reference.serialize_time
           Reference._update_other_args store l_empty).
  - reflexivity.
  - intros items Hit. vm_compute in Hit. injection Hit as <-.
    intros Hin. no_elem Hin.
Defined.

(** * Further properties of the module *)

(** ** Stores that extend a store *)

Lemma truthy_store v h : store_of (truthy v h) = h.
Proof. unfold truthy. by repeat case_match. Qed.

Lemma iterate_store v h : store_of (iterate v h) = h.
Proof. unfold iterate. by repeat case_match. Qed.

Lemma truthy_extend v h h' b :
  truthy v h = Ok b h → h ⊆ h' → truthy v h' = Ok b h'.
Proof.
  intros Ht Hsub. destruct v; simpl in *; try congruence.
  destruct (h !! l) as [o|] eqn:Hl; [|done].
  rewrite (lookup_weaken _ _ _ _ Hl Hsub). destruct o; congruence.
Qed.

Lemma iterate_extend v h h' items :
  iterate v h = Ok items h → h ⊆ h' → iterate v h' = Ok items h'.
Proof.
  intros Hi Hsub. destruct v; simpl in *; try congruence.
  destruct (h !! l) as [o|] eqn:Hl; [|done].
  rewrite (lookup_weaken _ _ _ _ Hl Hsub). destruct o; congruence.
Qed.

Lemma dict_ref_extend h h' v : dict_ref h v → h ⊆ h' → dict_ref h' v.
Proof.
  intros (l & d & -> & Hl) Hsub. exists l, d. split; [done|].
  by eapply lookup_weaken.
Qed.

Lemma for_each_app f items1 items2 h :
  for_each (items1 ++ items2) f h
  = (do for_each items1 f in for_each items2 f) h.
Proof.
  revert h. induction items1 as [|x items1 IH]; intros h; [done|].
  simpl. unfold bind. destruct (f x h) as [[] h1|]; [|done].
  rewrite IH. done.
Qed.

(** ** The items of a string *)

(** A string has one item for each character, whatever the number of
    bytes the character takes. *)
Example chars_one_accented : chars "é" = [VStr "é"].
Proof. reflexivity. Qed.

Example chars_accented_then_plain : chars "éa" = [VStr "é"; VStr "a"].
Proof. reflexivity. Qed.

Example chars_three_bytes_each : chars "日本" = [VStr "日"; VStr "本"].
Proof. reflexivity. Qed.

Example unpack2_one_accented :
  unpack2 (VStr "é") ∅ = Raise ValueError ∅.
Proof. reflexivity. Qed.

Example unpack2_accented_then_plain :
  unpack2 (VStr "éa") ∅ = Ok (VStr "é", VStr "a") ∅.
Proof. reflexivity. Qed.

(** ** The two pair statements of [aggregation] on any value *)

Lemma set_pair_falsy p k1 k2 v h :
  truthy v h = Ok false h → set_pair p k1 k2 v h = Ok tt h.
Proof. intros Ht. unfold set_pair, bind. by rewrite Ht. Qed.

Lemma set_pair_wrong_length p k1 k2 vs h :
  vs ≠ [] → length vs ≠ 2 →
  set_pair p k1 k2 (VTuple vs) h = Raise ValueError h.
Proof.
  intros Hne Hlen. unfold set_pair, bind. simpl.
  by destruct vs as [|a [|b [|c vs]]].
Qed.



(** Whatever [v] is and whether the statement returns or raises, the
    store it leaves differs from the one it found at the payload only. *)
Lemma set_pair_store lp k1 k2 v d h :
  h !! lp = Some (ODict d) →
  ∃ d', store_of (set_pair (VRef lp) k1 k2 v h) = <[lp := ODict d']> h.
Proof.
  intros Hl. unfold set_pair, bind.
  pose proof (truthy_store v h) as Ht.
  destruct (truthy v h) as [given ht|e ht]; simpl in Ht; subst ht;
    [|exists d; by rewrite insert_id].
  destruct given; [|exists d; by rewrite insert_id].
  unfold unpack2, bind.
  pose proof (iterate_store v h) as Hi.
  destruct (iterate v h) as [items hi|e hi]; simpl in Hi; subst hi;
    [|exists d; by rewrite insert_id].
  destruct items as [|a [|b [|c items]]];
    try (exists d; by rewrite insert_id).
  unfold ret, setitem. rewrite Hl, lookup_insert_eq. simpl.
  eexists. by rewrite insert_insert_eq.
Qed.

Section AggregationEdges.
Context {TimeInterval Interval : Type}.
Variable parse_time_interval : TimeInterval → bool → exn + Interval.
Variable serialize_time : Interval → bool → exn + (value * value).
Variable upd : value → value → M unit.

Abbreviation aggregation' := (aggregation parse_time_interval serialize_time upd).

(** The store [aggregation] has when it reaches its pair statements:
    the payload at [lp] with its three items, in a store that keeps
    every object of [h], where [lp] is new. *)
Lemma aggregation_start evalscript time_interval aggregation_interval
    size resolution other_args interval start_time end_time h :
  parse_time_interval time_interval true = inr interval →
  serialize_time interval true = inr (start_time, end_time) →
  ∃ lp lr la h3,
    h ⊆ h3 ∧ h !! lp = None ∧
    h3 !! lp = Some (ODict [("evalscript", evalscript);
                            ("timeRange", VRef lr);
                            ("aggregationInterval", VRef la)]) ∧
    aggregation' evalscript time_interval aggregation_interval
      size resolution other_args h =
    (do set_pair (VRef lp) "width" "height" size in
     do set_pair (VRef lp) "resx" "resy" resolution in
     merge_other_args upd (VRef lp) other_args) h3.
Proof.
  intros Hp Hs. rewrite aggregation_unfold.
  unfold bind at 1 2 3 4 5, lift. rewrite Hp, Hs. cbn beta iota.
  alloc lr Hlr. alloc la Hla. alloc lp Hlp.
  apply lookup_insert_None in Hla as [Hla ?].
  apply lookup_insert_None in Hlp as [Hlp ?].
  apply lookup_insert_None in Hlp as [Hlp ?].
  eexists lp, lr, la, _. split; [|split; [done|split; [|reflexivity]]].
  - do 3 (etrans; [|apply insert_subseteq; by rewrite ?lookup_insert_None]).
    done.
  - by rewrite lookup_insert_eq.
Qed.

(** X1.  With [other_args] left out or empty, and a size and a
    resolution that are each [None] or a pair, the payload of
    [aggregation] has exactly these items, in this order: the
    evalscript, the time range, the aggregation interval, then the
    width and height when a size is given, then [resx] and [resy] when
    a resolution is given.  Size and resolution do not exclude each
    other. *)
Theorem aggregation_payload_items
    h evalscript time_interval aggregation_interval size resolution
    other_args interval start_time end_time :
  parse_time_interval time_interval true = inr interval →
  serialize_time interval true = inr (start_time, end_time) →
  optional is_pair size = true →
  optional is_pair resolution = true →
  no_other_args h other_args →
  ∃ p hf time_range aggregation_of,
    aggregation' evalscript time_interval aggregation_interval
      size resolution other_args h = Ok p hf ∧
    as_dict hf p = Some ([("evalscript", evalscript);
                          ("timeRange", time_range);
                          ("aggregationInterval", aggregation_of)]
                         ++ pair_items "width" "height" size
                         ++ pair_items "resx" "resy" resolution) ∧
    as_dict hf time_range = Some [("from", start_time); ("to", end_time)] ∧
    as_dict hf aggregation_of = Some [("of", aggregation_interval)].
Proof.
  intros Hp Hs Hsize Hres Hno.
  destruct (aggregation_no_other_args parse_time_interval serialize_time upd
              h evalscript time_interval aggregation_interval size resolution
              other_args interval start_time end_time Hp Hs Hsize Hres Hno)
    as (hf & lp & lr & la & Ha & [_ _ _ _ Hd Hr Hi]).
  exists (VRef lp), hf, (VRef lr), (VRef la). split; [done|].
  simpl. by rewrite Hd, Hr, Hi.
Qed.

(** X2.  A size given as a tuple that is not empty and does not have
    two items makes [aggregation] raise [ValueError], whatever the
    resolution and [other_args] are; and so does such a resolution when
    the size is [None] or a pair.  No object of the caller has been
    changed by then. *)
Theorem aggregation_rejects_wrong_length
    h evalscript time_interval aggregation_interval size resolution
    other_args interval start_time end_time items :
  parse_time_interval time_interval true = inr interval →
  serialize_time interval true = inr (start_time, end_time) →
  items ≠ [] → length items ≠ 2 →
  (size = VTuple items ∨
   (optional is_pair size = true ∧ resolution = VTuple items)) →
  ∃ hf,
    aggregation' evalscript time_interval aggregation_interval
      size resolution other_args h = Raise ValueError hf ∧
    h ⊆ hf.
Proof.
  intros Hp Hs Hne Hlen Hbad.
  destruct (aggregation_start evalscript time_interval aggregation_interval
              size resolution other_args interval start_time end_time h Hp Hs)
    as (lp & lr & la & h3 & Hsub & Hnew & Hl3 & ->).
  destruct Hbad as [->|[Hsize ->]].
  - exists h3. split; [|done]. unfold bind at 1.
    by rewrite set_pair_wrong_length.
  - assert (Hsize' : size = VNone ∨ ∃ a b, size = VTuple [a; b]).
    { destruct size as [| | | | |[|a [|b [|]]]|]; try done; eauto. }
    destruct Hsize' as [->|(w & hh & ->)].
    + exists h3. split; [|done]. unfold bind at 1. rewrite set_pair_none.
      cbn beta iota. unfold bind at 1. by rewrite set_pair_wrong_length.
    + eexists. unfold bind at 1. rewrite (set_pair_pair _ _ _ _ _ _ _ Hl3).
      cbn beta iota. unfold bind at 1. rewrite set_pair_wrong_length by done.
      split; [done|]. by apply insert_subseteq_r.
Qed.

(** X3.  A size that counts as false (an empty tuple, [0], an empty
    list) is passed over like [None]: [aggregation] does with it what
    it does without a size; and the same for such a resolution. *)
Theorem aggregation_falsy_pair_ignored
    h evalscript time_interval aggregation_interval size resolution
    other_args :
  (truthy size h = Ok false h →
   aggregation' evalscript time_interval aggregation_interval
     size resolution other_args h
   = aggregation' evalscript time_interval aggregation_interval
       VNone resolution other_args h) ∧
  (truthy resolution h = Ok false h →
   aggregation' evalscript time_interval aggregation_interval
     size resolution other_args h
   = aggregation' evalscript time_interval aggregation_interval
       size VNone other_args h).
Proof.
  destruct (parse_time_interval time_interval true) as [e|iv] eqn:Hp.
  { split; intros _; unfold aggregation, bind, lift; by rewrite Hp. }
  destruct (serialize_time iv true) as [e|[s e]] eqn:Hs.
  { split; intros _; unfold aggregation, bind, lift; by rewrite Hp, Hs. }
  rewrite !aggregation_unfold. unfold bind, lift. rewrite Hp, Hs.
  cbn beta iota. alloc lr Hlr. alloc la Hla. alloc lp Hlp.
  apply lookup_insert_None in Hla as [Hla ?].
  apply lookup_insert_None in Hlp as [Hlp ?].
  apply lookup_insert_None in Hlp as [Hlp ?].
  set (h3 := <[lp := _]> _).
  assert (Hh3 : h ⊆ h3).
  { unfold h3.
    do 3 (etrans; [|apply insert_subseteq; by rewrite ?lookup_insert_None]).
    done. }
  assert (Hl3 : h3 !! lp = Some (ODict [("evalscript", evalscript);
                  ("timeRange", VRef lr); ("aggregationInterval", VRef la)])).
  { unfold h3. by rewrite lookup_insert_eq. }
  split; intros Hf.
  - by rewrite (set_pair_falsy _ _ _ _ _ (truthy_extend _ _ _ _ Hf Hh3)),
         set_pair_none.
  - destruct (set_pair (VRef lp) "width" "height" size h3)
      as [[] h4|] eqn:H4; [|done].
    destruct (set_pair_inv _ _ _ _ _ _ _ Hl3 H4) as (d4 & ->).
    assert (Hh4 : h ⊆ <[lp := ODict d4]> h3) by by apply insert_subseteq_r.
    by rewrite (set_pair_falsy _ _ _ _ _ (truthy_extend _ _ _ _ Hf Hh4)),
         set_pair_none.
Qed.


(** X5.  Without [other_args], [aggregation] changes no object of the
    caller, whatever its arguments are and whether it returns or
    raises: the store it leaves has every object of the store it found,
    as it was. *)
Theorem aggregation_keeps_store
    h evalscript time_interval aggregation_interval size resolution :
  h ⊆ store_of (aggregation' evalscript time_interval aggregation_interval
                  size resolution VNone h).
Proof.
  destruct (parse_time_interval time_interval true) as [e|iv] eqn:Hp.
  { unfold aggregation, bind, lift. by rewrite Hp. }
  destruct (serialize_time iv true) as [e|[s e]] eqn:Hs.
  { unfold aggregation, bind, lift. by rewrite Hp, Hs. }
  destruct (aggregation_start evalscript time_interval aggregation_interval
              size resolution VNone iv s e h Hp Hs)
    as (lp & lr & la & h3 & Hsub & Hnew & Hl3 & ->).
  unfold bind at 1.
  destruct (set_pair_store lp "width" "height" size _ h3 Hl3) as (d4 & H4).
  destruct (set_pair (VRef lp) "width" "height" size h3) as [[] h4|e4 h4];
    simpl in H4; subst h4; [|by apply insert_subseteq_r].
  unfold bind at 1.
  destruct (set_pair_store lp "resx" "resy" resolution d4
              (<[lp := ODict d4]> h3)) as (d5 & H5);
    [apply lookup_insert_eq|].
  destruct (set_pair (VRef lp) "resx" "resy" resolution _) as [[] h5|e5 h5];
    simpl in H5; subst h5; simpl;
    do 2 (apply insert_subseteq_r; [done|]); done.
Qed.

(** X6.  [other_args] comes last in [aggregation].  If the call
    without it raises, so does the call with it, and the merge utility
    is not called.  If the call without it returns a payload and
    [other_args] counts as true, that payload is handed to the merge
    utility with [other_args], and the call returns the same payload
    object in the store the merge utility left, or raises what the
    merge utility raised. *)
Theorem aggregation_other_args_last
    h evalscript time_interval aggregation_interval size resolution
    other_args :
  (∀ e h', aggregation' evalscript time_interval aggregation_interval
             size resolution VNone h = Raise e h' →
           aggregation' evalscript time_interval aggregation_interval
             size resolution other_args h = Raise e h') ∧
  (∀ p hf, aggregation' evalscript time_interval aggregation_interval
             size resolution VNone h = Ok p hf →
           truthy other_args hf = Ok true hf →
           aggregation' evalscript time_interval aggregation_interval
             size resolution other_args h
           = match upd p other_args hf with
             | Ok _ h' => Ok p h'
             | Raise e h' => Raise e h'
             end).
Proof.
  split.
  - intros e h' Ha. rewrite aggregation_split. unfold bind. by rewrite Ha.
  - intros p hf Ha Ht. rewrite aggregation_split. unfold bind at 1.
    rewrite Ha. unfold merge_other_args, bind. rewrite Ht.
    by destruct (upd p other_args hf).
Qed.

End AggregationEdges.

(** ** What the loop of [body] may do to a store, on any items *)

Lemma only_dataFilter_added_sub h h' : h ⊆ h' → only_dataFilter_added h h'.
Proof.
  intros Hsub l o Hl. pose proof (lookup_weaken _ _ _ _ Hl Hsub).
  destruct o; [by left | done].
Qed.

Lemma only_dataFilter_added_refl h : only_dataFilter_added h h.
Proof. by apply only_dataFilter_added_sub. Qed.

Lemma only_dataFilter_added_keeps h h' l :
  only_dataFilter_added h h' → h' !! l = None → h !! l = None.
Proof.
  intros Hadd Hl. destruct (h !! l) as [o|] eqn:Ho; [|done].
  specialize (Hadd l o Ho). destruct o as [d|vs].
  - destruct Hadd as [H|(_ & e & _ & H)]; congruence.
  - congruence.
Qed.

Lemma only_dataFilter_added_trans h1 h2 h3 :
  only_dataFilter_added h1 h2 → only_dataFilter_added h2 h3 →
  only_dataFilter_added h1 h3.
Proof.
  intros H12 H23 l o Hl. pose proof (H12 l o Hl) as Hstep.
  destruct o as [d|vs]; [|by apply (H23 l _ Hstep)].
  destruct Hstep as [Hsame|(Hd & e & He & Hnew)].
  - destruct (H23 l _ Hsame) as [H|(Hd & e & He & Hnew)]; [by left|].
    right. split; [done|]. exists e. split; [|done].
    by eapply only_dataFilter_added_keeps.
  - destruct (H23 l _ Hnew) as [H|(Hd' & _)].
    + right. split; [done|]. by exists e.
    + by rewrite (dict_get_app_last _ _ _ Hd) in Hd'.
Qed.

Lemma ensure_any v h :
  only_dataFilter_added h (store_of (ensure_dataFilter v h)).
Proof.
  pose proof (fresh_lookup h) as Hf.
  assert (Halloc : only_dataFilter_added h (<[fresh (dom h) := ODict []]> h)).
  { by apply only_dataFilter_added_sub, insert_subseteq. }
  unfold ensure_dataFilter, bind, contains, new_dict, setitem.
  destruct v as [| | | |s|vs|l]; try apply only_dataFilter_added_refl.
  - destruct (substring_of _ _); simpl;
      [apply only_dataFilter_added_refl | done].
  - destruct (existsb _ _); simpl;
      [apply only_dataFilter_added_refl | done].
  - destruct (h !! l) as [[d|vs]|] eqn:Hl;
      [| |apply only_dataFilter_added_refl].
    + unfold dict_has. destruct (dict_get d "dataFilter") as [x|] eqn:Hd;
        simpl; [apply only_dataFilter_added_refl|].
      assert (fresh (dom h) ≠ l) by congruence.
      rewrite lookup_insert_ne, Hl by done. simpl.
      rewrite dict_set_new by done.
      intros l' o Hl'. destruct (decide (l' = l)) as [->|Hne].
      * rewrite Hl in Hl'. injection Hl' as <-. right. split; [done|].
        eexists. split; [exact Hf|]. by rewrite lookup_insert_eq.
      * assert (fresh (dom h) ≠ l') by congruence.
        rewrite !lookup_insert_ne by done. rewrite Hl'.
        destruct o; [by left | done].
    + destruct (existsb _ _); simpl; [apply only_dataFilter_added_refl|].
      assert (fresh (dom h) ≠ l) by congruence.
      rewrite lookup_insert_ne, Hl by done. done.
Qed.

Lemma for_each_any items : ∀ h,
  only_dataFilter_added h (store_of (for_each items ensure_dataFilter h)).
Proof.
  induction items as [|v items IH]; intros h; simpl.
  { apply only_dataFilter_added_refl. }
  unfold bind. pose proof (ensure_any v h) as Hv.
  destruct (ensure_dataFilter v h) as [[] h1|e h1]; simpl in Hv; [|done].
  eapply only_dataFilter_added_trans; [exact Hv | apply IH].
Qed.

(** The dictionaries the loop binds to ['dataFilter'] are not shared:
    two elements that lacked the key and now have the same object
    under it are one element. *)
Lemma for_each_not_shared items : ∀ h h',
  Forall (dict_ref h) items →
  for_each items ensure_dataFilter h = Ok tt h' →
  ∀ l1 l2 d1 d2 e,
    VRef l1 ∈ items → VRef l2 ∈ items →
    h !! l1 = Some (ODict d1) → h !! l2 = Some (ODict d2) →
    dict_get d1 "dataFilter" = None → dict_get d2 "dataFilter" = None →
    h' !! l1 = Some (ODict (d1 ++ [("dataFilter", VRef e)])) →
    h' !! l2 = Some (ODict (d2 ++ [("dataFilter", VRef e)])) →
    l1 = l2.
Proof.
  induction items as [|v items IH]; intros h h' Hwf Hrun l1 l2 d1 d2 e
    Hin1 Hin2 Hl1 Hl2 Hd1 Hd2 Hf1 Hf2.
  { by apply elem_of_nil in Hin1. }
  apply Forall_cons in Hwf as [(l0 & d0 & -> & Hl0) Hwf].
  simpl in Hrun. unfold bind in Hrun.
  destruct (dict_get d0 "dataFilter") as [x|] eqn:Hk.
  - rewrite (ensure_present h (VRef l0) d0) in Hrun;
      [| by simpl; rewrite Hl0 | by eexists].
    apply elem_of_cons in Hin1 as [Heq|Hin1]; [injection Heq as ->; congruence|].
    apply elem_of_cons in Hin2 as [Heq|Hin2]; [injection Heq as ->; congruence|].
    by eapply (IH h h').
  - rewrite (ensure_missing h l0 d0) in Hrun by done.
    pose proof (fresh_lookup h) as Hfresh.
    set (e0 := fresh (dom h)) in *.
    set (h1 := <[l0 := ODict (d0 ++ [("dataFilter", VRef e0)])]>
               (<[e0 := ODict []]> h)) in *.
    assert (He0 : e0 ≠ l0) by congruence.
    assert (Hkeep : ∀ l, l ≠ l0 → l ≠ e0 → h1 !! l = h !! l).
    { intros l H1 H2. unfold h1. by rewrite !lookup_insert_ne. }
    assert (Hh1l0 : h1 !! l0 = Some (ODict (d0 ++ [("dataFilter", VRef e0)]))).
    { unfold h1. by rewrite lookup_insert_eq. }
    assert (Hh1e : h1 !! e0 = Some (ODict [])).
    { unfold h1. rewrite lookup_insert_ne by done. by rewrite lookup_insert_eq. }
    assert (Hwf1 : Forall (dict_ref h1) items).
    { eapply Forall_impl; [exact Hwf|]. intros v (l & d & -> & Hl).
      destruct (decide (l = l0)) as [->|Hne]; [by eexists _, _|].
      exists l, d. split; [done|]. rewrite Hkeep; [done..|congruence]. }
    destruct (for_each_ensure items h1 Hwf1) as (h'' & Hrun' & Hn).
    rewrite Hrun in Hrun'. injection Hrun' as <-.
    assert (Hfin0 : h' !! l0 = Some (ODict (d0 ++ [("dataFilter", VRef e0)]))).
    { apply (norm_frame _ _ _ Hn); [done|].
      intros [_ (d & Hl & Hd)]. rewrite Hh1l0 in Hl. injection Hl as <-.
      by rewrite (dict_get_app_last _ _ _ Hk) in Hd. }
    assert (Hother : ∀ l d, l ≠ l0 → VRef l ∈ VRef l0 :: items →
              h !! l = Some (ODict d) → dict_get d "dataFilter" = None →
              h' !! l = Some (ODict (d ++ [("dataFilter", VRef e0)])) → False).
    { intros l d Hne Hin Hl Hd Hfin.
      apply elem_of_cons in Hin as [Heq|Hin]; [congruence|].
      assert (l ≠ e0) by congruence.
      destruct (norm_filled _ _ _ Hn l d Hin) as (e' & He' & _ & Hfin');
        [by rewrite Hkeep | done |].
      rewrite Hfin in Hfin'. injection Hfin' as Heq.
      apply app_inj_tail in Heq as [_ Heq]. injection Heq as <-. congruence. }
    destruct (decide (l1 = l0)) as [->|Hne1], (decide (l2 = l0)) as [->|Hne2].
    + done.
    + exfalso. rewrite Hfin0 in Hf1. injection Hf1 as Heq.
      apply app_inj_tail in Heq as [_ Heq]. injection Heq as <-.
      by eapply (Hother l2 d2).
    + exfalso. rewrite Hfin0 in Hf2. injection Hf2 as Heq.
      apply app_inj_tail in Heq as [_ Heq]. injection Heq as <-.
      by eapply (Hother l1 d1).
    + apply elem_of_cons in Hin1 as [Heq|Hin1]; [congruence|].
      apply elem_of_cons in Hin2 as [Heq|Hin2]; [congruence|].
      assert (l1 ≠ e0) by congruence. assert (l2 ≠ e0) by congruence.
      eapply (IH h1 h' Hwf1 Hrun l1 l2 d1 d2 e); try done;
        by rewrite Hkeep.
Qed.

(** ** Further properties of [body] and of the constructor *)

Lemma truthy_falsy v h : falsy_value v = true → truthy v h = Ok false h.
Proof.
  destruct v as [|b| | | | |]; simpl; try done;
    [by destruct b | by intros -> ..].
Qed.

Section BodyEdges.
Context {TimeInterval Interval BBox Geometry MimeType Kwargs Base : Type}.
Variable parse_time_interval : TimeInterval → bool → exn + Interval.
Variable serialize_time : Interval → bool → exn + (value * value).
Variable upd : value → value → M unit.
Variable bounds : option BBox → option Geometry → M value.
Variable JSON : MimeType.
Variable base_init : MimeType → value → Kwargs → heap → exn + Base.

Abbreviation aggregation' := (aggregation parse_time_interval serialize_time upd).

(** X7.  [other_args] comes last in [body].  If the call without it
    raises, so does the call with it, and the merge utility is not
    called.  If the call without it returns a payload and [other_args]
    counts as true, that payload is handed to the merge utility with
    [other_args], and the call returns the same payload object in the
    store the merge utility left, or raises what the merge utility
    raised. *)
Theorem body_other_args_last
    h request_bounds request_data aggregation calculations other_args :
  (∀ e h', body upd request_bounds request_data aggregation calculations
             VNone h = Raise e h' →
           body upd request_bounds request_data aggregation calculations
             other_args h = Raise e h') ∧
  (∀ p hf, body upd request_bounds request_data aggregation calculations
             VNone h = Ok p hf →
           truthy other_args hf = Ok true hf →
           body upd request_bounds request_data aggregation calculations
             other_args h
           = match upd p other_args hf with
             | Ok _ h' => Ok p h'
             | Raise e h' => Raise e h'
             end).
Proof.
  split.
  - intros e h' Hb. rewrite body_split. unfold bind. by rewrite Hb.
  - intros p hf Hb Ht. rewrite body_split. unfold bind at 1.
    rewrite Hb. unfold merge_other_args, bind. rewrite Ht.
    by destruct (upd p other_args hf).
Qed.

(** X8.  Without [other_args], whatever [request_data] is and whether
    [body] returns or raises, every object of the caller is still
    there afterwards: a list exactly as it was, a dictionary either as
    it was or with the one item ['dataFilter'] after the items it had.
    [body] removes no key, rebinds none and reorders none. *)
Theorem body_only_adds_dataFilter
    h request_bounds request_data aggregation calculations :
  only_dataFilter_added h
    (store_of (body upd request_bounds request_data aggregation calculations
                 VNone h)).
Proof.
  pose proof (iterate_store request_data h) as Hi.
  destruct (iterate request_data h) as [items hi|e hi] eqn:Hit;
    simpl in Hi; subst hi.
  2: { unfold body, bind. rewrite Hit. apply only_dataFilter_added_refl. }
  pose proof (for_each_any items h) as Hloop.
  destruct (for_each items ensure_dataFilter h) as [[] h1|e h1] eqn:Hrun;
    simpl in Hloop.
  - destruct (body_after_loop upd h request_bounds request_data aggregation
                calculations items h1 Hit Hrun)
      as (hf & lp & li & c & -> & [Hsub _ _ _ _ _]).
    eapply only_dataFilter_added_trans; [exact Hloop|].
    by apply only_dataFilter_added_sub.
  - unfold body, bind. by rewrite Hit, Hrun.
Qed.

(** X9.  [body] stops with [TypeError] at the first element of
    [request_data] that is [None], a boolean or a number, whatever the
    other arguments are.  It does not undo what it has done: the
    dictionaries before that element have already got their
    ['dataFilter']. *)
Theorem body_raises_at_scalar_element
    h request_bounds request_data aggregation calculations other_args
    before v after :
  iterate request_data h = Ok (before ++ v :: after) h →
  Forall (dict_ref h) before →
  is_scalar v = true →
  ∃ h1,
    body upd request_bounds request_data aggregation calculations
      other_args h = Raise TypeError h1 ∧
    normalized before h h1.
Proof.
  intros Hit Hwf Hv.
  destruct (for_each_ensure before h Hwf) as (h1 & Hrun & Hn).
  exists h1. split; [|done].
  unfold body, bind at 1. rewrite Hit. unfold bind at 1.
  rewrite for_each_app. unfold bind at 1. rewrite Hrun. simpl.
  unfold bind at 1. by destruct v.
Qed.

(** X10.  Each element that lacked ['dataFilter'] gets an empty
    dictionary of its own: when [body] has returned, two different
    elements that lacked the key do not have the same object under
    it. *)
Theorem body_dataFilter_not_shared
    h request_bounds request_data aggregation calculations items :
  iterate request_data h = Ok items h →
  Forall (dict_ref h) items →
  ∃ p hf,
    body upd request_bounds request_data aggregation calculations VNone h
      = Ok p hf ∧
    ∀ l1 l2 e,
      VRef l1 ∈ items → VRef l2 ∈ items →
      lacks_dataFilter h l1 → lacks_dataFilter h l2 →
      getitem hf (VRef l1) "dataFilter" = Some (VRef e) →
      getitem hf (VRef l2) "dataFilter" = Some (VRef e) →
      l1 = l2.
Proof.
  intros Hit Hwf.
  destruct (for_each_ensure items h Hwf) as (h1 & Hrun & Hn).
  destruct (body_after_loop upd h request_bounds request_data aggregation
              calculations items h1 Hit Hrun)
    as (hf & lp & li & c & Hb & [Hsub _ _ _ _ _]).
  exists (VRef lp), hf. split; [done|].
  intros l1 l2 e Hin1 Hin2 (d1 & Hl1 & Hd1) (d2 & Hl2 & Hd2) Hg1 Hg2.
  destruct (norm_filled _ _ _ Hn l1 d1 Hin1 Hl1 Hd1) as (e1 & _ & _ & Hf1).
  destruct (norm_filled _ _ _ Hn l2 d2 Hin2 Hl2 Hd2) as (e2 & _ & _ & Hf2).
  unfold getitem in Hg1, Hg2. simpl in Hg1, Hg2.
  rewrite (lookup_weaken _ _ _ _ Hf1 Hsub) in Hg1.
  rewrite (lookup_weaken _ _ _ _ Hf2 Hsub) in Hg2.
  simpl in Hg1, Hg2.
  rewrite (dict_get_app_last _ _ _ Hd1) in Hg1.
  rewrite (dict_get_app_last _ _ _ Hd2) in Hg2.
  injection Hg1 as ->. injection Hg2 as ->.
  by eapply (for_each_not_shared items h h1 Hwf Hrun l1 l2 d1 d2 e).
Qed.

(** X11.  The payload [body] returns and its ['input'] are two new
    dictionaries, objects the caller did not have; and so are, for
    [calculations=None], the dictionary stored under ['calculations']
    and the empty one inside it, the four being different objects.
    [body] hands out no dictionary of the caller's in their place and
    no dictionary twice. *)
Theorem body_builds_new_objects
    h request_bounds request_data aggregation calculations p hf :
  body upd request_bounds request_data aggregation calculations VNone h
    = Ok p hf →
  ∃ lp li,
    p = VRef lp ∧
    getitem hf p "input" = Some (VRef li) ∧
    h !! lp = None ∧ h !! li = None ∧ lp ≠ li ∧
    (calculations = VNone →
     ∃ lc ld,
       getitem hf p "calculations" = Some (VRef lc) ∧
       getitem hf (VRef lc) "default" = Some (VRef ld) ∧
       as_dict hf (VRef ld) = Some [] ∧
       h !! lc = None ∧ h !! ld = None ∧
       NoDup [lp; li; lc; ld]).
Proof.
  intros Hb.
  destruct (body_returned upd _ _ _ _ _ _ _ Hb) as (items & h1 & Hit & Hrun).
  destruct (body_after_loop upd h request_bounds request_data aggregation
              calculations items h1 Hit Hrun)
    as (hf' & lp & li & c & Hb' & [Hsub Hlp Hli Hp Hi Hc]).
  rewrite Hb in Hb'. injection Hb' as -> <-.
  pose proof (for_each_any items h) as Hloop. rewrite Hrun in Hloop.
  simpl in Hloop.
  assert (Hnew : ∀ l, h1 !! l = None → h !! l = None).
  { intros l. by apply only_dataFilter_added_keeps. }
  exists lp, li. split; [done|].
  split; [unfold getitem; simpl; by rewrite Hp|].
  split; [by apply Hnew|]. split; [by apply Hnew|].
  split; [intros ->; congruence|].
  intros ->. simpl in Hc. destruct Hc as (lc & ld & -> & Hlc & Hld & Hc & Hd).
  exists lc, ld. unfold getitem. simpl. rewrite Hp, Hc, Hd. simpl.
  repeat split; try done; try by apply Hnew.
  repeat (apply NoDup_cons; split;
          [rewrite ?elem_of_cons, elem_of_nil; intros Heq;
           repeat destruct Heq as [Heq|Heq]; try done; subst; congruence|]).
  apply NoDup_nil_2.
Qed.

(** X12.  Any [other_args] that counts as false is passed over like
    [None], by [body] and by [aggregation]: [False], [0], [0.0], an
    empty string and an empty tuple all give the call without
    [other_args], and the merge utility is not called. *)
Theorem falsy_other_args_ignored
    h other_args request_bounds request_data aggregation calculations
    evalscript time_interval aggregation_interval size resolution :
  falsy_value other_args = true →
  body upd request_bounds request_data aggregation calculations other_args h
    = body upd request_bounds request_data aggregation calculations VNone h
  ∧
  aggregation' evalscript time_interval aggregation_interval
    size resolution other_args h
    = aggregation' evalscript time_interval aggregation_interval
        size resolution VNone h.
Proof.
  intros Hf. split.
  - rewrite body_split. unfold bind.
    destruct (body upd _ _ _ _ VNone h) as [p hf|]; [|done].
    unfold merge_other_args, bind. by rewrite (truthy_falsy _ _ Hf).
  - rewrite aggregation_split. unfold bind.
    destruct (aggregation' _ _ _ _ _ VNone h) as [p hf|]; [|done].
    unfold merge_other_args, bind. by rewrite (truthy_falsy _ _ Hf).
Qed.

(** X13.  [aggregation] and [body] in a row.  When the aggregation
    part is built by [aggregation] and then given to [body] with a
    sequence of dictionaries the caller had before, the payload of
    [body] has that very object under ['aggregation'], and [body] has
    changed nothing of what [aggregation] created. *)
Theorem body_keeps_built_aggregation
    h evalscript time_interval aggregation_interval size resolution
    built h1 request_bounds request_data calculations items :
  aggregation' evalscript time_interval aggregation_interval
    size resolution VNone h = Ok built h1 →
  iterate request_data h = Ok items h →
  Forall (dict_ref h) items →
  ∃ p hf,
    body upd request_bounds request_data built calculations VNone h1
      = Ok p hf ∧
    getitem hf p "aggregation" = Some built ∧
    ∀ l o, h !! l = None → h1 !! l = Some o → hf !! l = Some o.
Proof.
  intros Ha Hit Hwf.
  apply aggregation_returned in Ha as [Hsub _].
  assert (Hit1 : iterate request_data h1 = Ok items h1)
    by by eapply iterate_extend.
  assert (Hwf1 : Forall (dict_ref h1) items).
  { eapply Forall_impl; [exact Hwf|]. intros v Hv. by eapply dict_ref_extend. }
  destruct (body_run upd h1 request_bounds request_data built calculations
              items Hit1 Hwf1)
    as (hf & h2 & lp & li & c & Hb & Hn & [Hsub2 _ _ Hp _ _]).
  exists (VRef lp), hf. split; [done|].
  split; [unfold getitem; simpl; by rewrite Hp|].
  intros l o Hnew Hl. eapply lookup_weaken; [|exact Hsub2].
  apply (norm_frame _ _ _ Hn); [done|].
  intros [Hin _]. rewrite Forall_forall in Hwf.
  destruct (Hwf _ Hin) as (l' & d & Heq & Hl'). injection Heq as <-.
  congruence.
Qed.

(** The merge utility has no part in a call without [other_args]. *)
Lemma body_without_other_args (upd' : value → value → M unit)
    h request_bounds request_data aggregation calculations :
  body upd request_bounds request_data aggregation calculations VNone h
  = body upd' request_bounds request_data aggregation calculations VNone h.
Proof.
  unfold body, bind. repeat (case_match; try done).
Qed.

(** X14.  The constructor never calls the merge utility: it gives
    [body] no [other_args], so the object it builds and the store it
    leaves are the same whatever the merge utility is. *)
Theorem init_never_merges (upd' : value → value → M unit)
    h aggregation input_data bbox geometry calculations kwargs :
  __init__ upd bounds JSON base_init
    aggregation input_data bbox geometry calculations kwargs h
  = __init__ upd' bounds JSON base_init
      aggregation input_data bbox geometry calculations kwargs h.
Proof.
  unfold __init__, bind.
  destruct (bounds bbox geometry h) as [request_bounds h1|]; [|done].
  by rewrite (body_without_other_args upd').
Qed.

End BodyEdges.

(** ** The further properties on the example stores *)

Lemma aggregation_payload_items_witness :
  ∃ p hf time_range aggregation_of,
    Reference.aggregation (VStr "//VERSION=3") interval (VStr "P1D")
      (VTuple [VInt 512; VInt 512]) (VTuple [VInt 10; VInt 10]) VNone store
      = Ok p hf ∧
    as_dict hf p = Some [("evalscript", VStr "//VERSION=3");
                         ("timeRange", time_range);
                         ("aggregationInterval", aggregation_of);
                         ("width", VInt 512); ("height", VInt 512);
                         ("resx", VInt 10); ("resy", VInt 10)].
Proof.
  destruct (aggregation_payload_items
              Reference.parse_time_interval Reference.serialize_time
              Reference._update_other_args
              store (VStr "//VERSION=3") interval (VStr "P1D")
              (VTuple [VInt 512; VInt 512]) (VTuple [VInt 10; VInt 10]) VNone
              interval (VStr "2020-01-01T00:00:00Z")
              (VStr "2020-02-01T00:00:00Z"))
    as (p & hf & time_range & aggregation_of & Ha & Hp & _).
  - reflexivity.
  - reflexivity.
  - reflexivity.
  - reflexivity.
  - by left.
  - exists p, hf, time_range, aggregation_of.
    split; [exact Ha | exact Hp].
Defined.

Lemma aggregation_rejects_wrong_length_witness :
  ∃ hf,
    Reference.aggregation (VStr "//VERSION=3") interval (VStr "P1D")
      (VTuple [VInt 512; VInt 512; VInt 3]) VNone (VRef l_other) store
      = Raise ValueError hf ∧
    store ⊆ hf.
Proof.
  apply (aggregation_rejects_wrong_length
           Reference.parse_time_interval Reference.serialize_time
           Reference._update_other_args
           store (VStr "//VERSION=3") interval (VStr "P1D")
           (VTuple [VInt 512; VInt 512; VInt 3]) VNone (VRef l_other)
           interval (VStr "2020-01-01T00:00:00Z")
           (VStr "2020-02-01T00:00:00Z")
           [VInt 512; VInt 512; VInt 3]).
  - reflexivity.
  - reflexivity.
  - discriminate.
  - discriminate.
  - by left.
Defined.

Lemma aggregation_falsy_pair_ignored_witness :
  Reference.aggregation (VStr "//VERSION=3") interval (VStr "P1D")
    (VTuple []) (VTuple [VInt 10; VInt 10]) VNone store
  = Reference.aggregation (VStr "//VERSION=3") interval (VStr "P1D")
      VNone (VTuple [VInt 10; VInt 10]) VNone store
  ∧
  Reference.aggregation (VStr "//VERSION=3") interval (VStr "P1D")
    (VTuple [VInt 512; VInt 512]) (VInt 0) VNone store
  = Reference.aggregation (VStr "//VERSION=3") interval (VStr "P1D")
      (VTuple [VInt 512; VInt 512]) VNone VNone store.
Proof.
  split.
  - apply (aggregation_falsy_pair_ignored
             Reference.parse_time_interval Reference.serialize_time
             Reference._update_other_args store). reflexivity.
  - apply (aggregation_falsy_pair_ignored
             Reference.parse_time_interval Reference.serialize_time
             Reference._update_other_args store). reflexivity.
Defined.


Lemma aggregation_other_args_last_witness :
  ∃ p hf,
    Reference.aggregation (VStr "//VERSION=3") interval (VStr "P1D")
      (VTuple [VInt 512; VInt 512]) VNone VNone store = Ok p hf ∧
    Reference.aggregation (VStr "//VERSION=3") interval (VStr "P1D")
      (VTuple [VInt 512; VInt 512]) VNone (VRef l_other) store
    = match Reference._update_other_args p (VRef l_other) hf with
      | Ok _ h' => Ok p h'
      | Raise e h' => Raise e h'
      end.
Proof.
  eexists _, _. split; [vm_compute; reflexivity|].
  apply (aggregation_other_args_last
           Reference.parse_time_interval Reference.serialize_time
           Reference._update_other_args store); reflexivity.
Defined.

Lemma body_other_args_last_witness :
  ∃ p hf,
    Reference.body (VRef l_bounds) (VRef l_data) (VRef l_aggregation)
      VNone VNone store = Ok p hf ∧
    Reference.body (VRef l_bounds) (VRef l_data) (VRef l_aggregation)
      VNone (VRef l_other) store
    = match Reference._update_other_args p (VRef l_other) hf with
      | Ok _ h' => Ok p h'
      | Raise e h' => Raise e h'
      end.
Proof.
  eexists _, _. split; [vm_compute; reflexivity|].
  apply (body_other_args_last Reference._update_other_args store);
    reflexivity.
Defined.

Lemma body_raises_at_scalar_element_witness :
  ∃ h1 e,
    Reference.body (VRef l_bounds) (VRef EdgeExample.l_mixed)
      (VRef l_aggregation) VNone VNone EdgeExample.store
      = Raise TypeError h1 ∧
    h1 !! l_first = Some (ODict [("type", VStr "sentinel-2-l1c");
                                 ("dataFilter", VRef e)]).
Proof.
  destruct (body_raises_at_scalar_element Reference._update_other_args
              EdgeExample.store (VRef l_bounds) (VRef EdgeExample.l_mixed)
              (VRef l_aggregation) VNone VNone
              [VRef l_first] VNone [VRef l_second])
    as (h1 & Hb & Hn).
  - reflexivity.
  - dict_refs.
  - reflexivity.
  - destruct (norm_filled _ _ _ Hn l_first [("type", VStr "sentinel-2-l1c")])
      as (e & _ & _ & Hfirst).
    + apply elem_of_cons. by left.
    + reflexivity.
    + reflexivity.
    + exists h1, e. split; [exact Hb | exact Hfirst].
Defined.

Lemma body_dataFilter_not_shared_witness :
  ∃ p hf,
    Reference.body (VRef l_bounds) (VRef EdgeExample.l_lacking)
      (VRef l_aggregation) VNone VNone EdgeExample.store = Ok p hf ∧
    ∀ e, getitem hf (VRef l_first) "dataFilter" = Some (VRef e) →
         getitem hf (VRef EdgeExample.l_third) "dataFilter" = Some (VRef e) →
         False.
Proof.
  destruct (body_dataFilter_not_shared Reference._update_other_args
              EdgeExample.store (VRef l_bounds) (VRef EdgeExample.l_lacking)
              (VRef l_aggregation) VNone
              [VRef l_first; VRef EdgeExample.l_third])
    as (p & hf & Hb & Hown).
  - reflexivity.
  - dict_refs.
  - exists p, hf. split; [exact Hb|]. intros e H1 H3.
    assert (Heq : l_first = EdgeExample.l_third); [|discriminate Heq].
    apply (Hown l_first EdgeExample.l_third e);
      [ | | | | exact H1 | exact H3].
    + apply elem_of_cons. by left.
    + apply elem_of_cons. right. apply elem_of_cons. by left.
    + exists [("type", VStr "sentinel-2-l1c")]. split; reflexivity.
    + exists [("type", VStr "landsat-ot-l1")]. split; reflexivity.
Defined.

Lemma body_builds_new_objects_witness :
  ∃ p hf lp li lc ld,
    Reference.body (VRef l_bounds) (VRef l_data) (VRef l_aggregation)
      VNone VNone store = Ok p hf ∧
    p = VRef lp ∧
    getitem hf p "input" = Some (VRef li) ∧
    getitem hf p "calculations" = Some (VRef lc) ∧
    getitem hf (VRef lc) "default" = Some (VRef ld) ∧
    store !! lp = None ∧ store !! li = None ∧
    store !! lc = None ∧ store !! ld = None ∧
    NoDup [lp; li; lc; ld].
Proof.
  destruct (Reference.body (VRef l_bounds) (VRef l_data) (VRef l_aggregation)
              VNone VNone store) as [p hf|e hf] eqn:Hb;
    [|vm_compute in Hb; discriminate Hb].
  destruct (body_builds_new_objects Reference._update_other_args
              store (VRef l_bounds) (VRef l_data) (VRef l_aggregation) VNone
              p hf Hb)
    as (lp & li & Hp & Hi & Hlp & Hli & _ & Hcalc).
  destruct (Hcalc eq_refl) as (lc & ld & Hc & Hd & _ & Hlc & Hld & Hdup).
  exists p, hf, lp, li, lc, ld.
  split; [reflexivity|]. split; [exact Hp|]. split; [exact Hi|].
  split; [exact Hc|]. split; [exact Hd|]. split; [exact Hlp|].
  split; [exact Hli|]. split; [exact Hlc|]. split; [exact Hld | exact Hdup].
Defined.

Lemma falsy_other_args_ignored_witness :
  Reference.body (VRef l_bounds) (VRef l_data) (VRef l_aggregation)
    VNone (VInt 0) store
  = Reference.body (VRef l_bounds) (VRef l_data) (VRef l_aggregation)
      VNone VNone store
  ∧
  Reference.aggregation (VStr "//VERSION=3") interval (VStr "P1D")
    (VTuple [VInt 512; VInt 512]) VNone (VInt 0) store
  = Reference.aggregation (VStr "//VERSION=3") interval (VStr "P1D")
      (VTuple [VInt 512; VInt 512]) VNone VNone store.
Proof.
  apply (falsy_other_args_ignored
           Reference.parse_time_interval Reference.serialize_time
           Reference._update_other_args store (VInt 0)).
  reflexivity.
Defined.

Lemma body_keeps_built_aggregation_witness :
  ∃ built h1 p hf,
    Reference.aggregation (VStr "//VERSION=3") interval (VStr "P1D")
      (VTuple [VInt 512; VInt 512]) VNone VNone store = Ok built h1 ∧
    Reference.body (VRef l_bounds) (VRef l_data) built VNone VNone h1
      = Ok p hf ∧
    getitem hf p "aggregation" = Some built ∧
    ∀ l o, store !! l = None → h1 !! l = Some o → hf !! l = Some o.
Proof.
  destruct (Reference.aggregation (VStr "//VERSION=3") interval (VStr "P1D")
              (VTuple [VInt 512; VInt 512]) VNone VNone store)
    as [built h1|e h1] eqn:Ha; [|vm_compute in Ha; discriminate Ha].
  destruct (body_keeps_built_aggregation
              Reference.parse_time_interval Reference.serialize_time
              Reference._update_other_args
              store (VStr "//VERSION=3") interval (VStr "P1D")
              (VTuple [VInt 512; VInt 512]) VNone built h1
              (VRef l_bounds) (VRef l_data) VNone
              [VRef l_first; VRef l_second] Ha)
    as (p & hf & Hb & Hagg & Hkept).
  - reflexivity.
  - dict_refs.
  - exists built, h1, p, hf.
    split; [reflexivity|]. split; [exact Hb|]. split; [exact Hagg | exact Hkept].
Defined.

(** ** A dictionary where the sequence is expected, and a constructor
    that fails late *)

Lemma ensure_key_with k h :
  substring_of "dataFilter" k = true →
  ensure_dataFilter (VStr k) h = Ok tt h.
Proof. intros Hk. unfold ensure_dataFilter, bind, contains. by rewrite Hk. Qed.

Lemma ensure_key_without k h :
  substring_of "dataFilter" k = false →
  ensure_dataFilter (VStr k) h
  = Raise TypeError (<[fresh (dom h) := ODict []]> h).
Proof. intros Hk. unfold ensure_dataFilter, bind, contains. by rewrite Hk. Qed.

Lemma for_each_keys keys : ∀ h,
  Exists (λ k, substring_of "dataFilter" k = false) keys →
  ∃ h1, for_each (VStr <$> keys) ensure_dataFilter h = Raise TypeError h1 ∧
        h ⊆ h1.
Proof.
  induction keys as [|k keys IH]; intros h Hex.
  { by apply Exists_nil in Hex. }
  simpl. unfold bind.
  destruct (substring_of "dataFilter" k) eqn:Hk.
  - rewrite (ensure_key_with _ _ Hk).
    apply Exists_cons in Hex as [Hex|Hex]; [congruence|]. by apply IH.
  - rewrite (ensure_key_without _ _ Hk). eexists. split; [done|].
    apply insert_subseteq, fresh_lookup.
Qed.

Section Misuse.
Context {BBox Geometry MimeType Kwargs Base : Type}.
Variable upd : value → value → M unit.
Variable bounds : option BBox → option Geometry → M value.
Variable JSON : MimeType.
Variable base_init : MimeType → value → Kwargs → heap → exn + Base.

(** X15.  One input-data dictionary given where the sequence of them is
    expected is walked key by key.  If one of its keys does not contain
    the text [dataFilter], as with [{'type': ...}], [body] raises
    [TypeError], whatever the other arguments are, and has changed no
    object of the caller.  If every key contains it, [body] (without
    [other_args]) returns a payload, and has changed no object either:
    the dictionary gets no ['dataFilter']. *)
Theorem body_on_a_single_dictionary
    h l d request_bounds aggregation calculations other_args :
  h !! l = Some (ODict d) →
  (Exists (λ k, substring_of "dataFilter" k = false) (dict_keys d) →
   ∃ h1,
     body upd request_bounds (VRef l) aggregation calculations other_args h
       = Raise TypeError h1 ∧
     h ⊆ h1) ∧
  (Forall (λ k, substring_of "dataFilter" k = true) (dict_keys d) →
   ∃ p hf,
     body upd request_bounds (VRef l) aggregation calculations VNone h
       = Ok p hf ∧
     h ⊆ hf).
Proof.
  intros Hl.
  assert (Hit : iterate (VRef l) h = Ok (VStr <$> dict_keys d) h).
  { simpl. by rewrite Hl. }
  split.
  - intros Hex. destruct (for_each_keys _ h Hex) as (h1 & Hrun & Hsub).
    exists h1. split; [|done].
    unfold body, bind. by rewrite Hit, Hrun.
  - intros Hall.
    assert (Hrun : for_each (VStr <$> dict_keys d) ensure_dataFilter h
                   = Ok tt h).
    { apply for_each_settled. apply Forall_fmap.
      eapply Forall_impl; [exact Hall|]. intros k Hk. cbv beta in Hk.
      unfold compose, contains. by rewrite Hk. }
    destruct (body_after_loop upd h request_bounds (VRef l) aggregation
                calculations _ h Hit Hrun)
      as (hf & lp & li & c & Hb & [Hsub _ _ _ _ _]).
    by exists (VRef lp), hf.
Qed.

(** X16.  The constructor writes into the caller's dictionaries before
    it calls the initializer of the base class, and does not undo it:
    once the bounds helper has returned, every element of a sequence of
    input-data dictionaries has ['dataFilter'] in the store the
    constructor leaves, whether the constructor returns the object or
    raises what the initializer raised. *)
Theorem init_mutates_even_when_it_fails
    h aggregation input_data bbox geometry calculations kwargs
    request_bounds h1 items :
  bounds bbox geometry h = Ok request_bounds h1 →
  iterate input_data h1 = Ok items h1 →
  Forall (dict_ref h1) items →
  ∃ p hf,
    __init__ upd bounds JSON base_init
      aggregation input_data bbox geometry calculations kwargs h
    = match base_init JSON p kwargs hf with
      | inr b => Ok {| mime_type := JSON; payload := p; base := b |} hf
      | inl e => Raise e hf
      end ∧
    Forall (has_dataFilter hf) items.
Proof.
  intros Hbounds Hit Hwf.
  destruct (body_run upd h1 request_bounds input_data aggregation
              calculations items Hit Hwf)
    as (hf & h2 & lp & li & c & Hb & Hn & [Hsub _ _ _ _ _]).
  exists (VRef lp), hf. split; [|by eapply normalized_has].
  unfold __init__, bind. rewrite Hbounds, Hb. unfold lift.
  by destruct (base_init JSON (VRef lp) kwargs hf).
Qed.

End Misuse.

Lemma body_on_a_single_dictionary_witness :
  (∃ h1,
     Reference.body (VRef l_bounds) (VRef l_first) (VRef l_aggregation)
       VNone VNone store = Raise TypeError h1 ∧
     store ⊆ h1) ∧
  (∃ p hf,
     Reference.body (VRef l_bounds) (VRef l_empty) (VRef l_aggregation)
       VNone VNone store = Ok p hf ∧
     store ⊆ hf).
Proof.
  split.
  - apply (body_on_a_single_dictionary Reference._update_other_args
             store l_first [("type", VStr "sentinel-2-l1c")]
             (VRef l_bounds) (VRef l_aggregation) VNone VNone eq_refl).
    apply Exists_cons. by left.
  - apply (body_on_a_single_dictionary Reference._update_other_args
             store l_empty [] (VRef l_bounds) (VRef l_aggregation)
             VNone VNone eq_refl).
    apply Forall_nil_2.
Defined.

(** A base class whose initializer refuses every request. *)
Lemma init_mutates_even_when_it_fails_witness :
  ∃ hf,
    __init__ Reference._update_other_args Reference.bounds Reference.JSON
      (λ _ _ (_ : Reference.Kwargs) _,
         inl (OtherError "ValueError") : exn + Reference.Base)
      (VRef l_aggregation) (VRef l_data)
      (Some (VTuple [VInt 0; VInt 0; VInt 1; VInt 1])) None VNone [] store
    = Raise (OtherError "ValueError") hf ∧
    Forall (has_dataFilter hf) [VRef l_first; VRef l_second].
Proof.
  edestruct (init_mutates_even_when_it_fails
               Reference._update_other_args Reference.bounds Reference.JSON
               (λ _ _ (_ : Reference.Kwargs) _,
                  inl (OtherError "ValueError") : exn + Reference.Base)
               store (VRef l_aggregation) (VRef l_data)
               (Some (VTuple [VInt 0; VInt 0; VInt 1; VInt 1])) None VNone [])
    as (p & hf & Hinit & Hall).
  - reflexivity.
  - reflexivity.
  - dict_refs.
  - exists hf. split; [exact Hinit | exact Hall].
Defined.
